(** * knotes.py: the "Task Management" teaching script

    A shallow embedding of the notional modules of [knotes.py]
    (data_access, business_logic, user_interface, utilities, config,
    tests, constants) into a small state-and-exception monad over a
    Python-like world: a heap of objects with attribute dictionaries, the
    module-level constants, and the console (lines still to be typed,
    output written so far).

    The script is one file that stands for several: each banner names the
    module ([data_access.py], [business_logic.py], ...) whose text follows,
    and the [import] statements refer to those names.  The model takes each
    block as the module its banner names; the linting example at the top
    (a function that prints a sum and a [print] of an undefined name) takes
    no part in the application and is left out.

    Every module is a [Section] (or a family of definitions) that takes the
    names it imports as an argument, the way the [from ... import ...]
    statements of the script bind them: a method call on an object looks
    the class of the receiver up among the imported classes and runs the
    function found there, so the caller never knows statically what it
    calls. *)

From Stdlib Require Import ZArith String Ascii List.
From stdpp Require Import base gmap strings list.
Import ListNotations.

Local Open Scope string_scope.
Local Open Scope Z_scope.

(** ** Values, objects, the world *)

Definition loc := positive.

(** The Python values this script can build or meet. *)
Inductive value : Type :=
| VNone
| VBool (b : bool)
| VInt (z : Z)
| VStr (s : string)
| VRef (l : loc).

#[global] Instance value_eq_dec : EqDecision value.
Proof. solve_decision. Defined.

(** An instance: the name of its class and its [__dict__]. *)
Record object : Type := Object {
  obj_class : string;
  obj_attrs : gmap string value
}.

(** What has been written to the console: [print] writes a line, [input]
    writes its prompt and no line end. *)
Inductive output : Type :=
| Printed (s : string)
| Prompted (s : string).

Record world : Type := World {
  heap : gmap loc object;
  globals : gmap string value;
  stdin : list string;
  stdout : list output
}.

Definition with_heap (h : gmap loc object) (w : world) : world :=
  World h (globals w) (stdin w) (stdout w).
Definition with_globals (g : gmap string value) (w : world) : world :=
  World (heap w) g (stdin w) (stdout w).
Definition with_stdin (i : list string) (w : world) : world :=
  World (heap w) (globals w) i (stdout w).
Definition with_stdout (o : list output) (w : world) : world :=
  World (heap w) (globals w) (stdin w) o.

(** ** The monad *)

Inductive exn : Type :=
| TypeError
| AttributeError
| NameError
| EOFError
| AssertionError.

#[global] Instance exn_eq_dec : EqDecision exn.
Proof. solve_decision. Defined.

(** [OutOfFuel] is the answer of a [while True] loop that was given too few
    iterations; no Python run ends that way. *)
Inductive result (A : Type) : Type :=
| Ok (a : A)
| Raise (e : exn)
| OutOfFuel.
Arguments Ok {A} a.
Arguments Raise {A} e.
Arguments OutOfFuel {A}.

Definition M (A : Type) : Type := world -> result A * world.

Definition ret {A} (a : A) : M A := fun w => (Ok a, w).

Definition bind {A B} (m : M A) (k : A -> M B) : M B :=
  fun w =>
    match m w with
    | (Ok a, w') => k a w'
    | (Raise e, w') => (Raise e, w')
    | (OutOfFuel, w') => (OutOfFuel, w')
    end.

Definition raise {A} (e : exn) : M A := fun w => (Raise e, w).
Definition out_of_fuel {A} : M A := fun w => (OutOfFuel, w).

Declare Scope py_scope.
Delimit Scope py_scope with py.
Notation "x <- m ;; k" := (bind m (fun x => k))
  (at level 100, m at next level, right associativity) : py_scope.
Notation "m ;;; k" := (bind m (fun _ => k))
  (at level 100, right associativity) : py_scope.
Local Open Scope py_scope.

(** ** Built-ins *)

(** [print(s)] *)
Definition print (s : string) : M value :=
  fun w => (Ok VNone, with_stdout (stdout w ++ [Printed s]) w).

(** [input(prompt)]: the prompt is written, then a line is read; at end of
    input Python raises [EOFError]. *)
Definition input (prompt : string) : M string :=
  fun w =>
    let w' := with_stdout (stdout w ++ [Prompted prompt]) w in
    match stdin w with
    | [] => (Raise EOFError, w')
    | line :: rest => (Ok line, with_stdin rest w')
    end.

(** A module-level name read as a value; no function of the script does
    that, and the proofs below say so. *)
Definition load_global (name : string) : M value :=
  fun w =>
    match globals w !! name with
    | Some v => (Ok v, w)
    | None => (Raise NameError, w)
    end.

(** [obj.name] for an instance attribute. *)
Definition getattr (v : value) (name : string) : M value :=
  fun w =>
    match v with
    | VRef l =>
        match heap w !! l with
        | Some o =>
            match obj_attrs o !! name with
            | Some a => (Ok a, w)
            | None => (Raise AttributeError, w)
            end
        | None => (Raise AttributeError, w)
        end
    | _ => (Raise AttributeError, w)
    end.

(** [obj.name = a] *)
Definition setattr (v : value) (name : string) (a : value) : M value :=
  fun w =>
    match v with
    | VRef l =>
        match heap w !! l with
        | Some o =>
            (Ok VNone,
             with_heap (<[l := Object (obj_class o) (<[name := a]> (obj_attrs o))]> (heap w)) w)
        | None => (Raise AttributeError, w)
        end
    | _ => (Raise AttributeError, w)
    end.

(** A new, empty instance of the class named [cname]. *)
Definition alloc (cname : string) : M value :=
  fun w =>
    let l := fresh (dom (heap w)) in
    (Ok (VRef l), with_heap (<[l := Object cname ∅]> (heap w)) w).

(** The one-character strings a string iterates over. *)
Fixpoint chars (s : string) : list value :=
  match s with
  | EmptyString => []
  | String c s' => VStr (String c EmptyString) :: chars s'
  end.

(** [len(v)]: strings have a length; [None], numbers and the instances of
    the classes of this script (none defines [__len__]) have none. *)
Definition py_len (v : value) : M value :=
  match v with
  | VStr s => ret (VInt (Z.of_nat (String.length s)))
  | _ => raise TypeError
  end.

(** [iter(v)], run to the end: what a [for] loop will go through. *)
Definition py_iter (v : value) : M (list value) :=
  match v with
  | VStr s => ret (chars s)
  | _ => raise TypeError
  end.

(** [a + b] *)
Definition py_add (a b : value) : M value :=
  match a, b with
  | VInt x, VInt y => ret (VInt (x + y))
  | VStr x, VStr y => ret (VStr (x ++ y))
  | _, _ => raise TypeError
  end.

(** [x in container] *)
Definition py_contains (x container : value) : M bool :=
  match container with
  | VStr s =>
      match x with
      | VStr sub =>
          ret (match String.index 0 sub s with Some _ => true | None => false end)
      | _ => raise TypeError
      end
  | _ => raise TypeError
  end.

(** The digits of a natural number, most significant first. *)
Fixpoint digits (fuel n : nat) (acc : string) : string :=
  match fuel with
  | O => acc
  | S fuel' =>
      let acc' := String (ascii_of_nat (48 + Nat.modulo n 10)) acc in
      match Nat.div n 10 with
      | O => acc'
      | q => digits fuel' q acc'
      end
  end.

(** [str(v)], as an f-string field renders it.  The default text of an
    instance carries its address, which the model has not got: the location
    stands for it. *)
Definition py_str (v : value) : string :=
  match v with
  | VNone => "None"
  | VBool true => "True"
  | VBool false => "False"
  | VInt z =>
      let n := Z.abs_nat z in
      (if Z.ltb z 0 then "-" else "") ++ digits (S n) n ""
  | VStr s => s
  | VRef l => "<object at " ++ digits (S (Pos.to_nat l)) (Pos.to_nat l) "" ++ ">"
  end.

(** [for x in xs: body x] *)
Fixpoint for_each (xs : list value) (body : value -> M value) : M value :=
  match xs with
  | [] => ret VNone
  | x :: xs' => body x ;;; for_each xs' body
  end.

(** [a == b]: numbers and strings by value ([bool] is a kind of [int]),
    instances by identity, as no class here defines [__eq__]. *)
Definition py_eq (a b : value) : bool :=
  match a, b with
  | VBool x, VInt y => Z.eqb (Z.b2z x) y
  | VInt x, VBool y => Z.eqb x (Z.b2z y)
  | _, _ => bool_decide (a = b)
  end.

(** ** Classes and method calls *)

(** A method takes its receiver and its arguments in one list; a call with
    the wrong number of them is a [TypeError]. *)
Abbreviation method := (list value -> M value).

(** A class is its dictionary of methods, a module namespace the classes
    it binds by name. *)
Abbreviation class := (gmap string method).
Abbreviation namespace := (gmap string class).

(** The function the class named [cname] has under [name]. *)
Definition find_method (ns : namespace) (cname name : string) : option method :=
  match ns !! cname with
  | Some c => c !! name
  | None => None
  end.

(** [recv.name(args)], resolved among the classes of [ns].  An instance
    attribute of that name hides the method, and no value of the model can
    be called. *)
Definition call_method (ns : namespace) (recv : value) (name : string)
    (args : list value) : M value :=
  fun w =>
    match recv with
    | VRef l =>
        match heap w !! l with
        | Some o =>
            match obj_attrs o !! name with
            | Some _ => (Raise TypeError, w)
            | None =>
                match find_method ns (obj_class o) name with
                | Some f => f (recv :: args) w
                | None => (Raise AttributeError, w)
                end
            end
        | None => (Raise AttributeError, w)
        end
    | _ => (Raise AttributeError, w)
    end.

(** [cname(args)]: a new instance, initialised by [__init__] when the class
    has one. *)
Definition instantiate (ns : namespace) (cname : string) (args : list value)
    : M value :=
  match ns !! cname with
  | None => raise NameError
  | Some c =>
      match c !! "__init__" with
      | Some init =>
          self <- alloc cname;;
          r <- init (self :: args);;
          match r with
          | VNone => ret self
          | _ => raise TypeError
          end
      | None =>
          match args with
          | [] => alloc cname
          | _ => raise TypeError
          end
      end
  end.

(** ** data_access.py *)

Module TaskRepository.

(** [def get_tasks(self): pass] *)
Definition get_tasks : method := fun args =>
  match args with
  | [self] => ret VNone
  | _ => raise TypeError
  end.

(** [def save_task(self, task): pass] *)
Definition save_task : method := fun args =>
  match args with
  | [self; task] => ret VNone
  | _ => raise TypeError
  end.

Definition methods : class :=
  {[ "get_tasks" := get_tasks; "save_task" := save_task ]}.

End TaskRepository.

Definition data_access : namespace :=
  {[ "TaskRepository" := TaskRepository.methods ]}.

(** ** business_logic.py *)

Module TaskService.
Section Imports.

(** [from data_access import TaskRepository] *)
Variable imports : namespace.

(** [self.task_repository = TaskRepository()] *)
Definition __init__ : method := fun args =>
  match args with
  | [self] =>
      r <- instantiate imports "TaskRepository" [];;
      setattr self "task_repository" r
  | _ => raise TypeError
  end.

(** [return self.task_repository.get_tasks()] *)
Definition get_all_tasks : method := fun args =>
  match args with
  | [self] =>
      r <- getattr self "task_repository";;
      call_method imports r "get_tasks" []
  | _ => raise TypeError
  end.

(** [self.task_repository.save_task(task)] *)
Definition add_task : method := fun args =>
  match args with
  | [self; task] =>
      r <- getattr self "task_repository";;
      call_method imports r "save_task" [task];;;
      ret VNone
  | _ => raise TypeError
  end.

Definition methods : class :=
  {[ "__init__" := __init__;
     "get_all_tasks" := get_all_tasks;
     "add_task" := add_task ]}.

End Imports.
End TaskService.

Module Task.

(** [self.title = title; self.description = description] *)
Definition __init__ : method := fun args =>
  match args with
  | [self; title; description] =>
      setattr self "title" title;;;
      setattr self "description" description
  | _ => raise TypeError
  end.

Definition methods : class := {[ "__init__" := __init__ ]}.

End Task.

Definition business_logic (imports : namespace) : namespace :=
  {[ "TaskService" := TaskService.methods imports; "Task" := Task.methods ]}.

(** ** user_interface.py *)

(** How one pass through the body of a loop ends. *)
Inductive control : Type :=
| Continue
| Break.

(** [while True: body], cut off after [fuel] passes. *)
Fixpoint while_true (fuel : nat) (body : M control) : M value :=
  match fuel with
  | O => out_of_fuel
  | S fuel' =>
      c <- body;;
      match c with
      | Break => ret VNone
      | Continue => while_true fuel' body
      end
  end.

Section UserInterface.

(** [from business_logic import TaskService] *)
Variable imports : namespace.

(** The body of the [while True] loop of [start_application]. *)
Definition start_application_body (task_service : value) : M control :=
  print "Task Management Application";;;
  print "1. View Tasks";;;
  print "2. Add Task";;;
  print "3. Quit";;;
  choice <- input "Enter your choice: ";;
  if String.eqb choice "1" then
    tasks <- call_method imports task_service "get_all_tasks" [];;
    print "Tasks: ";;;
    items <- py_iter tasks;;
    for_each items (fun task => print ("- " ++ py_str task));;;
    ret Continue
  else if String.eqb choice "2" then
    new_task <- input "Enter task description: ";;
    call_method imports task_service "add_task" [VStr new_task];;;
    print "Task added successfully";;;
    ret Continue
  else if String.eqb choice "3" then
    print "Exiting the application. Goodbye!";;;
    ret Break
  else
    print "Invalid Choice. Please try again.";;;
    ret Continue.

Definition start_application (fuel : nat) : M value :=
  task_service <- instantiate imports "TaskService" [];;
  while_true fuel (start_application_body task_service).

End UserInterface.

(** ** utilities.py *)

(** [def format_date(date): pass] *)
Definition format_date (date : value) : M value := ret VNone.

(** ** config.py and constants.py *)

Definition FILENAME : string := "data.txt".
Definition TASK_MAX_LENGTH : Z := 100.

(** The module-level constants as the interpreter holds them. *)
Definition module_globals : gmap string value :=
  {[ "FILENAME" := VStr FILENAME; "TASK_MAX_LENGTH" := VInt TASK_MAX_LENGTH ]}.

(** The world a run starts in: no object yet, nothing printed, [lines]
    waiting to be typed. *)
Definition initial_world (lines : list string) : world :=
  World ∅ module_globals lines [].

(** ** tests.py *)

Definition assertEqual (first second : value) : M value :=
  if py_eq first second then ret VNone else raise AssertionError.

Definition assertIn (member container : value) : M value :=
  b <- py_contains member container;;
  if b : bool then ret VNone else raise AssertionError.

Module TestTaskService.
Section Imports.

(** [from business_logic import TaskService, Task] *)
Variable imports : namespace.

Definition test_add_task (self : value) : M value :=
  (* Arrange *)
  task_service <- instantiate imports "TaskService" [];;
  tasks0 <- call_method imports task_service "get_all_tasks" [];;
  initial_task_count <- py_len tasks0;;
  new_task <- instantiate imports "Task"
                [VStr "New Task"; VStr "Description of the new task"];;
  (* Act *)
  call_method imports task_service "add_task" [new_task];;;
  (* Assert *)
  tasks1 <- call_method imports task_service "get_all_tasks" [];;
  updated_task_count <- py_len tasks1;;
  expected <- py_add initial_task_count (VInt 1);;
  assertEqual updated_task_count expected;;;
  tasks2 <- call_method imports task_service "get_all_tasks" [];;
  assertIn new_task tasks2.

End Imports.
End TestTaskService.

(** What [unittest] reports for a test method: an [AssertionError] is a
    failure, any other exception an error. *)
Inductive verdict : Type :=
| Passed
| Failed
| Errored (e : exn)
| Hung.

Definition run_test (test : M value) (w : world) : verdict :=
  match fst (test w) with
  | Ok _ => Passed
  | Raise AssertionError => Failed
  | Raise e => Errored e
  | OutOfFuel => Hung
  end.

(** ** The script as linked: each module with the modules it imports *)

Definition the_business_logic : namespace := business_logic data_access.

(** main.py: [if __name__ == "__main__": start_application()] *)
Definition main (fuel : nat) : M value :=
  start_application the_business_logic fuel.

(** ** Well-formed receivers *)

Definition lookup_object (w : world) (v : value) : option object :=
  match v with
  | VRef l => heap w !! l
  | _ => None
  end.

(** An instance of the class [cname] none of whose own attributes hides one
    of the methods [names]. *)
Definition plain_instance (cname : string) (names : list string) (o : object)
    : bool :=
  bool_decide (obj_class o = cname)
  && forallb (fun n => bool_decide (obj_attrs o !! n = None)) names.

Definition is_repository (w : world) (v : value) : bool :=
  match lookup_object w v with
  | Some o => plain_instance "TaskRepository" ["get_tasks"; "save_task"] o
  | None => false
  end.

(** What [TaskService()] builds: an instance whose [task_repository] is a
    [TaskRepository]. *)
Definition is_service (w : world) (v : value) : bool :=
  match lookup_object w v with
  | Some o =>
      plain_instance "TaskService" ["get_all_tasks"; "add_task"] o
      && match obj_attrs o !! "task_repository" with
         | Some r => is_repository w r
         | None => false
         end
  | None => false
  end.

(** ** Observations on runs *)

(** A computation that neither reads nor writes the module-level
    constants: whatever they hold, it does the same. *)
Definition ignores_globals {A} (m : M A) : Prop :=
  forall g w, m (with_globals g w) = (fst (m w), with_globals g (snd (m w))).

Definition namespace_ignores_globals (ns : namespace) : Prop :=
  forall cname c name f args,
    ns !! cname = Some c -> c !! name = Some f -> ignores_globals (f args).

(** The world with the constant [FILENAME] of config.py set to [f]. *)
Definition with_FILENAME (f : value) (w : world) : world :=
  with_globals (<["FILENAME" := f]> (globals w)) w.

(** The world with the constant [TASK_MAX_LENGTH] of constants.py set to
    [n]. *)
Definition with_TASK_MAX_LENGTH (n : value) (w : world) : world :=
  with_globals (<["TASK_MAX_LENGTH" := n]> (globals w)) w.

(** Two runs that cannot be told apart: same answer, same objects, same
    input left, same output. *)
Definition same_run {A} (r1 r2 : result A * world) : Prop :=
  fst r1 = fst r2
  /\ heap (snd r1) = heap (snd r2)
  /\ stdin (snd r1) = stdin (snd r2)
  /\ stdout (snd r1) = stdout (snd r2).

(** The four lines of the menu and the prompt that follows them. *)
Definition menu : list output :=
  [ Printed "Task Management Application";
    Printed "1. View Tasks";
    Printed "2. Add Task";
    Printed "3. Quit";
    Prompted "Enter your choice: " ].

(** The refinement reading of the service: what the spec says each method
    is, a bare call of the repository's method [m] on the repository [r]. *)
Definition spec_get_all_tasks (m : method) (r : value) : M value := m [r].

Definition spec_add_task (m : method) (r task : value) : M value :=
  fun w =>
    match m [r; task] w with
    | (Ok _, w') => (Ok VNone, w')
    | other => other
    end.

(** A stand-in repository that keeps the last task saved and hands it
    back: a class the service can be run against to see what it passes on. *)
Module RecordingRepository.

Definition get_tasks : method := fun args =>
  match args with
  | [self] => getattr self "last"
  | _ => raise TypeError
  end.

Definition save_task : method := fun args =>
  match args with
  | [self; task] => setattr self "last" task;;; ret (VInt 1)
  | _ => raise TypeError
  end.

Definition methods : class :=
  {[ "get_tasks" := get_tasks; "save_task" := save_task ]}.

End RecordingRepository.

Definition recording_data_access : namespace :=
  {[ "TaskRepository" := RecordingRepository.methods ]}.

(** The objects the constructors leave on a heap [h]: [TaskService()]
    takes the first free location for the service and the next one for the
    repository its [__init__] builds; [Task(title, description)] takes the
    first free location. *)
Definition service_loc (h : gmap loc object) : loc := fresh (dom h).

Definition repository_loc (h : gmap loc object) : loc :=
  fresh (dom (<[service_loc h := Object "TaskService" ∅]> h)).

Definition heap_with_service (h : gmap loc object) : gmap loc object :=
  <[service_loc h := Object "TaskService" {[ "task_repository" := VRef (repository_loc h) ]}]>
    (<[repository_loc h := Object "TaskRepository" ∅]> h).

Definition task_object (title description : value) : object :=
  Object "Task" {[ "title" := title; "description" := description ]}.

(** The world once the menu has been shown and the choice read: the menu
    is on the console and [rest] is what remains to be typed. *)
Definition after_menu (rest : list string) (w : world) : world :=
  with_stdin rest (with_stdout (stdout w ++ menu) w).

(** The world after one more line has been printed. *)
Definition printed (s : string) (w : world) : world :=
  with_stdout (stdout w ++ [Printed s]) w.

(** The world after the prompt for a description has been answered. *)
Definition after_description (rest : list string) (w : world) : world :=
  with_stdin rest (with_stdout (stdout w ++ [Prompted "Enter task description: "]) w).

(** [self.task_repository] is [r], an instance whose class, as [imports]
    binds it, has the methods [get] and [save] under the names the service
    calls, neither hidden by an attribute of [r]. *)
Definition repository_of (imports : namespace) (w : world) (self r : value)
    (get save : method) : Prop :=
  exists o ro c,
    lookup_object w self = Some o
    /\ obj_attrs o !! "task_repository" = Some r
    /\ lookup_object w r = Some ro
    /\ obj_attrs ro !! "get_tasks" = None
    /\ obj_attrs ro !! "save_task" = None
    /\ imports !! obj_class ro = Some c
    /\ c !! "get_tasks" = Some get
    /\ c !! "save_task" = Some save.

(** [n] copies of the character [c]. *)
Fixpoint repeat_char (n : nat) (c : ascii) : string :=
  match n with
  | O => EmptyString
  | S n' => String c (repeat_char n' c)
  end.

(** A world in which [TaskService()] has just run, with [lines] to read. *)
Definition serviced_world (lines : list string) : world :=
  with_heap (heap_with_service ∅) (initial_world lines).

(** A computation on which the value of [FILENAME] cannot be seen: run
    from two worlds that differ in that constant only, it gives two runs
    that cannot be told apart. *)
Definition FILENAME_blind {A} (m : M A) : Prop :=
  forall f1 f2 w, same_run (m (with_FILENAME f1 w)) (m (with_FILENAME f2 w)).

(** ** The linting example *)




(** ** The session as a function of what is typed *)

(** How [start_application] ends: by the [break] of choice "3", or by an
    exception nothing catches. *)
Inductive ending : Type :=
| Quit
| Crash (e : exn).

Definition ending_result (e : ending) : result value :=
  match e with
  | Quit => Ok VNone
  | Crash x => Raise x
  end.

(** A whole session: how it ends, the lines left unread, what it wrote. *)
Record summary : Type := Summary {
  s_ending : ending;
  s_left : list string;
  s_written : list output
}.

Definition preceded_by (o : list output) (s : summary) : summary :=
  Summary (s_ending s) (s_left s) (o ++ s_written s).

(** The session the lines typed lead to, read off the branches of the loop
    in their order: nothing left to read is [EOFError] at the prompt, "1"
    is the [TypeError] of the view branch, "2" takes the next line as the
    description whatever it says, "3" quits, and any other line is
    answered and passed over. *)
Fixpoint session (lines : list string) : summary :=
  match lines with
  | [] => Summary (Crash EOFError) [] menu
  | choice :: rest =>
      if String.eqb choice "1" then
        Summary (Crash TypeError) rest (menu ++ [Printed "Tasks: "])
      else if String.eqb choice "2" then
        match rest with
        | [] =>
            Summary (Crash EOFError) []
              (menu ++ [Prompted "Enter task description: "])
        | _ :: rest' =>
            preceded_by
              (menu ++ [Prompted "Enter task description: ";
                        Printed "Task added successfully"])
              (session rest')
        end
      else if String.eqb choice "3" then
        Summary Quit rest (menu ++ [Printed "Exiting the application. Goodbye!"])
      else
        preceded_by (menu ++ [Printed "Invalid Choice. Please try again."])
          (session rest)
  end.

(** The world a session leaves: the service and its repository built, the
    input cut down to what was not read, the output extended. *)
Definition after_session (s : summary) (w : world) : world :=
  World (heap_with_service (heap w)) (globals w) (s_left s)
        (stdout w ++ s_written s).


(** * Proofs *)

(** ** Running a sequence *)

Lemma bind_Ok {A B} (m : M A) (k : A -> M B) w a w' :
  m w = (Ok a, w') -> bind m k w = k a w'.
Proof. intros Hm. unfold bind. now rewrite Hm. Qed.

Lemma bind_Raise {A B} (m : M A) (k : A -> M B) w e w' :
  m w = (Raise e, w') -> bind m k w = (Raise e, w').
Proof. intros Hm. unfold bind. now rewrite Hm. Qed.

Lemma with_heap_same w : with_heap (heap w) w = w.
Proof. now destruct w. Qed.

(** ** What the namespaces hold *)

Lemma data_access_lookup :
  data_access !! "TaskRepository" = Some TaskRepository.methods.
Proof. reflexivity. Qed.

Lemma repository_get_tasks_lookup :
  TaskRepository.methods !! "get_tasks" = Some TaskRepository.get_tasks.
Proof. reflexivity. Qed.

Lemma repository_save_task_lookup :
  TaskRepository.methods !! "save_task" = Some TaskRepository.save_task.
Proof. reflexivity. Qed.

Lemma repository_no_init : TaskRepository.methods !! "__init__" = None.
Proof. reflexivity. Qed.

Lemma business_logic_TaskService imports :
  business_logic imports !! "TaskService" = Some (TaskService.methods imports).
Proof. reflexivity. Qed.

Lemma business_logic_Task imports :
  business_logic imports !! "Task" = Some Task.methods.
Proof. reflexivity. Qed.

Lemma service_init_lookup imports :
  TaskService.methods imports !! "__init__" = Some (TaskService.__init__ imports).
Proof. reflexivity. Qed.

Lemma service_get_all_tasks_lookup imports :
  TaskService.methods imports !! "get_all_tasks"
  = Some (TaskService.get_all_tasks imports).
Proof. reflexivity. Qed.

Lemma service_add_task_lookup imports :
  TaskService.methods imports !! "add_task" = Some (TaskService.add_task imports).
Proof. reflexivity. Qed.

Lemma task_init_lookup : Task.methods !! "__init__" = Some Task.__init__.
Proof. reflexivity. Qed.

(** ** Receivers *)

Lemma plain_instance_class cname names o :
  plain_instance cname names o = true -> obj_class o = cname.
Proof.
  unfold plain_instance. intros H.
  apply andb_prop in H as [H _]. now apply bool_decide_eq_true in H.
Qed.

Lemma plain_instance_free cname names o n :
  plain_instance cname names o = true -> In n names -> obj_attrs o !! n = None.
Proof.
  unfold plain_instance. intros H Hin.
  apply andb_prop in H as [_ H].
  rewrite forallb_forall in H. specialize (H n Hin).
  now apply bool_decide_eq_true in H.
Qed.

Lemma is_repository_inv w v :
  is_repository w v = true ->
  exists o, lookup_object w v = Some o
            /\ obj_class o = "TaskRepository"
            /\ obj_attrs o !! "get_tasks" = None
            /\ obj_attrs o !! "save_task" = None.
Proof.
  unfold is_repository. destruct (lookup_object w v) as [o|]; [|discriminate].
  intros H. exists o. split; [reflexivity|]. split.
  - eapply plain_instance_class; eassumption.
  - split; eapply plain_instance_free; try eassumption; simpl; auto.
Qed.

Lemma is_service_inv w v :
  is_service w v = true ->
  exists o r, lookup_object w v = Some o
              /\ obj_class o = "TaskService"
              /\ obj_attrs o !! "get_all_tasks" = None
              /\ obj_attrs o !! "add_task" = None
              /\ obj_attrs o !! "task_repository" = Some r
              /\ is_repository w r = true.
Proof.
  unfold is_service. destruct (lookup_object w v) as [o|]; [|discriminate].
  intros H. apply andb_prop in H as [Hp Hr].
  destruct (obj_attrs o !! "task_repository") as [r|] eqn:Er; [|discriminate].
  exists o, r. split; [reflexivity|]. split.
  - eapply plain_instance_class; eassumption.
  - repeat split; try assumption;
      eapply plain_instance_free; try eassumption; simpl; auto.
Qed.

Lemma lookup_object_ref w v o :
  lookup_object w v = Some o -> exists l, v = VRef l /\ heap w !! l = Some o.
Proof. destruct v; simpl; try discriminate. intros H. eauto. Qed.

(** Both receivers are judged on the heap alone. *)
Lemma is_repository_heap w w' v :
  heap w' = heap w -> is_repository w' v = is_repository w v.
Proof.
  intros Hh. unfold is_repository, lookup_object. now rewrite Hh.
Qed.

Lemma is_service_heap w w' v :
  heap w' = heap w -> is_service w' v = is_service w v.
Proof.
  intros Hh. unfold is_service, lookup_object. rewrite Hh.
  destruct v; try reflexivity.
  destruct (heap w !! l) as [o|]; [|reflexivity].
  destruct (obj_attrs o !! "task_repository") as [r|]; [|reflexivity].
  now rewrite (is_repository_heap w w' r Hh).
Qed.

(** ** Calls that reach the stubs *)

Lemma call_get_tasks w r :
  is_repository w r = true ->
  call_method data_access r "get_tasks" [] w = (Ok VNone, w).
Proof.
  intros H. apply is_repository_inv in H as (o & Ho & Hc & Hg & _).
  apply lookup_object_ref in Ho as (l & -> & Hl).
  unfold call_method. rewrite Hl, Hg, Hc.
  reflexivity.
Qed.

Lemma call_save_task w r task :
  is_repository w r = true ->
  call_method data_access r "save_task" [task] w = (Ok VNone, w).
Proof.
  intros H. apply is_repository_inv in H as (o & Ho & Hc & _ & Hs).
  apply lookup_object_ref in Ho as (l & -> & Hl).
  unfold call_method. rewrite Hl, Hs, Hc.
  reflexivity.
Qed.

Lemma call_get_all_tasks w ts :
  is_service w ts = true ->
  call_method the_business_logic ts "get_all_tasks" [] w = (Ok VNone, w).
Proof.
  intros H. apply is_service_inv in H as (o & r & Ho & Hc & Hg & _ & Hr & Hrepo).
  apply lookup_object_ref in Ho as (l & -> & Hl).
  unfold call_method at 1. rewrite Hl, Hg, Hc.
  change (find_method the_business_logic "TaskService" "get_all_tasks")
    with (Some (TaskService.get_all_tasks data_access)). cbv beta iota.
  unfold TaskService.get_all_tasks.
  rewrite (bind_Ok _ _ w r w) by (unfold getattr; now rewrite Hl, Hr).
  now apply call_get_tasks.
Qed.

Lemma call_add_task w ts task :
  is_service w ts = true ->
  call_method the_business_logic ts "add_task" [task] w = (Ok VNone, w).
Proof.
  intros H. apply is_service_inv in H as (o & r & Ho & Hc & _ & Ha & Hr & Hrepo).
  apply lookup_object_ref in Ho as (l & -> & Hl).
  unfold call_method at 1. rewrite Hl, Ha, Hc.
  change (find_method the_business_logic "TaskService" "add_task")
    with (Some (TaskService.add_task data_access)). cbv beta iota.
  unfold TaskService.add_task.
  rewrite (bind_Ok _ _ w r w) by (unfold getattr; now rewrite Hl, Hr).
  rewrite (bind_Ok _ _ w VNone w) by now apply call_save_task.
  reflexivity.
Qed.

(** ** Constructors *)

Lemma fresh_heap_None (h : gmap loc object) : h !! fresh (dom h) = None.
Proof. apply not_elem_of_dom, is_fresh. Qed.

Lemma repository_loc_fresh (h : gmap loc object) :
  repository_loc h <> service_loc h /\ h !! repository_loc h = None.
Proof.
  unfold repository_loc.
  pose proof (is_fresh (dom (<[service_loc h := Object "TaskService" ∅]> h))) as Hf.
  set (l := fresh (dom (<[service_loc h := Object "TaskService" ∅]> h))) in *.
  assert (Hne : l <> service_loc h).
  { intros E. apply Hf. rewrite E. apply elem_of_dom.
    rewrite lookup_insert_eq. eauto. }
  split; [exact Hne|].
  destruct (h !! l) as [o|] eqn:Hl; [|reflexivity].
  exfalso. apply Hf. apply elem_of_dom.
  rewrite lookup_insert_ne by congruence. eauto.
Qed.

Lemma instantiate_TaskRepository w :
  instantiate data_access "TaskRepository" [] w = alloc "TaskRepository" w.
Proof. reflexivity. Qed.

Lemma instantiate_TaskService w :
  instantiate the_business_logic "TaskService" [] w
  = (Ok (VRef (service_loc (heap w))), with_heap (heap_with_service (heap w)) w).
Proof.
  destruct (repository_loc_fresh (heap w)) as [Hne Hnone].
  unfold instantiate, the_business_logic.
  rewrite business_logic_TaskService, service_init_lookup.
  unfold bind, alloc, TaskService.__init__, bind.
  rewrite instantiate_TaskRepository.
  unfold alloc, setattr, ret. cbn [heap with_heap globals stdin stdout].
  fold (service_loc (heap w)). fold (repository_loc (heap w)).
  rewrite lookup_insert_ne by assumption.
  rewrite lookup_insert_eq. cbn [obj_class obj_attrs].
  unfold with_heap. cbn [heap globals stdin stdout]. f_equal. f_equal.
  unfold heap_with_service.
  rewrite (insert_insert_ne (heap w) (repository_loc (heap w)) (service_loc (heap w)))
    by assumption.
  rewrite insert_insert_eq, insert_empty. reflexivity.
Qed.

Lemma heap_with_service_is_service w :
  is_service (with_heap (heap_with_service (heap w)) w) (VRef (service_loc (heap w)))
  = true.
Proof.
  destruct (repository_loc_fresh (heap w)) as [Hne Hnone].
  unfold is_service, lookup_object, heap_with_service.
  cbn [heap with_heap]. rewrite lookup_insert_eq.
  cbn [obj_attrs]. rewrite lookup_singleton_eq.
  unfold is_repository, lookup_object. cbn [heap with_heap].
  rewrite lookup_insert_ne by congruence. rewrite lookup_insert_eq.
  reflexivity.
Qed.

Lemma instantiate_Task imports title description w :
  instantiate (business_logic imports) "Task" [title; description] w
  = (Ok (VRef (fresh (dom (heap w)))),
     with_heap (<[fresh (dom (heap w)) := task_object title description]> (heap w)) w).
Proof.
  unfold instantiate. rewrite business_logic_Task. cbv beta iota.
  rewrite task_init_lookup.
  unfold bind, alloc, Task.__init__, bind, setattr, ret.
  cbn [heap with_heap globals stdin stdout].
  rewrite lookup_insert_eq. cbn [obj_class obj_attrs].
  cbn [heap with_heap globals stdin stdout].
  rewrite lookup_insert_eq. cbn [obj_class obj_attrs].
  unfold with_heap. cbn [heap globals stdin stdout]. f_equal. f_equal.
  rewrite !insert_insert_eq. reflexivity.
Qed.

(** ** One pass through the menu *)

Lemma menu_output (o : list output) :
  (((((o ++ [Printed "Task Management Application"])
         ++ [Printed "1. View Tasks"])
        ++ [Printed "2. Add Task"])
       ++ [Printed "3. Quit"])
      ++ [Prompted "Enter your choice: "]
   = o ++ menu)%list.
Proof. rewrite <- !app_assoc. reflexivity. Qed.

Lemma with_stdout_again o o' w : with_stdout o (with_stdout o' w) = with_stdout o w.
Proof. reflexivity. Qed.

(** Up to the choice, every pass does the same. *)
Ltac read_choice H :=
  unfold start_application_body;
  unfold bind at 1; unfold print at 1; cbv beta iota;
  unfold bind at 1; unfold print at 1; cbv beta iota;
  unfold bind at 1; unfold print at 1; cbv beta iota;
  unfold bind at 1; unfold print at 1; cbv beta iota;
  unfold bind at 1; unfold input at 1;
  cbn [stdin stdout heap globals with_stdout with_stdin];
  rewrite H; cbv beta iota;
  rewrite menu_output, !with_stdout_again;
  match goal with
  | |- context [with_stdin ?rest (with_stdout (stdout ?w ++ menu) ?w)] =>
      fold (after_menu rest w)
  end.

Lemma pass_invalid imports task_service w choice rest :
  stdin w = choice :: rest ->
  choice <> "1" -> choice <> "2" -> choice <> "3" ->
  start_application_body imports task_service w
  = (Ok Continue, printed "Invalid Choice. Please try again." (after_menu rest w)).
Proof.
  intros Hin H1 H2 H3. read_choice Hin.
  apply String.eqb_neq in H1, H2, H3. rewrite H1, H2, H3.
  reflexivity.
Qed.

Lemma pass_quit imports task_service w rest :
  stdin w = "3" :: rest ->
  start_application_body imports task_service w
  = (Ok Break, printed "Exiting the application. Goodbye!" (after_menu rest w)).
Proof. intros Hin. read_choice Hin. reflexivity. Qed.

(** Choice "2", whatever the service is: the line typed next goes to
    [add_task] as it is. *)
Lemma pass_add_generic imports task_service w description rest :
  stdin w = "2" :: description :: rest ->
  start_application_body imports task_service w
  = (call_method imports task_service "add_task" [VStr description];;;
     print "Task added successfully";;;
     ret Continue) (after_description rest (after_menu (description :: rest) w)).
Proof.
  intros Hin. read_choice Hin. cbn [String.eqb Ascii.eqb Bool.eqb].
  cbv beta iota.
  unfold bind at 1. unfold input at 1.
  reflexivity.
Qed.

Lemma pass_add_eof imports task_service w :
  stdin w = ["2"] ->
  start_application_body imports task_service w
  = (Raise EOFError,
     with_stdout (stdout (after_menu [] w) ++ [Prompted "Enter task description: "])
       (after_menu [] w)).
Proof. intros Hin. read_choice Hin. reflexivity. Qed.

Lemma pass_eof imports task_service w :
  stdin w = [] ->
  start_application_body imports task_service w
  = (Raise EOFError, with_stdout (stdout w ++ menu) w).
Proof.
  intros Hin. unfold start_application_body.
  unfold bind at 1; unfold print at 1; cbv beta iota.
  unfold bind at 1; unfold print at 1; cbv beta iota.
  unfold bind at 1; unfold print at 1; cbv beta iota.
  unfold bind at 1; unfold print at 1; cbv beta iota.
  unfold bind at 1; unfold input at 1.
  cbn [stdin stdout heap globals with_stdout with_stdin].
  rewrite Hin, menu_output. reflexivity.
Qed.

(** Choice "2" with the service of the script. *)
Lemma pass_add w task_service description rest :
  is_service w task_service = true ->
  stdin w = "2" :: description :: rest ->
  start_application_body the_business_logic task_service w
  = (Ok Continue,
     printed "Task added successfully"
       (after_description rest (after_menu (description :: rest) w))).
Proof.
  intros Hs Hin. rewrite (pass_add_generic _ _ _ _ _ Hin).
  set (w2 := after_description rest (after_menu (description :: rest) w)).
  assert (Hs2 : is_service w2 task_service = true)
    by (rewrite (is_service_heap w w2); [assumption|reflexivity]).
  rewrite (bind_Ok _ _ w2 VNone w2) by now apply call_add_task.
  reflexivity.
Qed.

(** Choice "1" with the service of the script. *)
Lemma pass_view w task_service rest :
  is_service w task_service = true ->
  stdin w = "1" :: rest ->
  start_application_body the_business_logic task_service w
  = (Raise TypeError, printed "Tasks: " (after_menu rest w)).
Proof.
  intros Hs Hin. read_choice Hin. cbn [String.eqb Ascii.eqb Bool.eqb].
  cbv beta iota.
  set (w1 := after_menu rest w).
  assert (Hs1 : is_service w1 task_service = true)
    by (rewrite (is_service_heap w w1); [assumption|reflexivity]).
  rewrite (bind_Ok _ _ w1 VNone w1) by now apply call_get_all_tasks.
  reflexivity.
Qed.

(** ** The loop *)

Lemma while_true_continue fuel (body : M control) w w' :
  body w = (Ok Continue, w') ->
  while_true (S fuel) body w = while_true fuel body w'.
Proof. intros Hb. cbn [while_true]. now rewrite (bind_Ok _ _ _ _ _ Hb). Qed.

Lemma while_true_break fuel (body : M control) w w' :
  body w = (Ok Break, w') ->
  while_true (S fuel) body w = (Ok VNone, w').
Proof. intros Hb. cbn [while_true]. now rewrite (bind_Ok _ _ _ _ _ Hb). Qed.

Lemma while_true_raise fuel (body : M control) w e w' :
  body w = (Raise e, w') ->
  while_true (S fuel) body w = (Raise e, w').
Proof. intros Hb. cbn [while_true]. now rewrite (bind_Raise _ _ _ _ _ Hb). Qed.

Lemma main_unfold fuel w :
  main fuel w
  = while_true fuel
      (start_application_body the_business_logic (VRef (service_loc (heap w))))
      (with_heap (heap_with_service (heap w)) w).
Proof.
  unfold main, start_application.
  now rewrite (bind_Ok _ _ _ _ _ (instantiate_TaskService w)).
Qed.

(** With one unit of fuel more than there are lines to read, the loop of
    the script always comes to an end of its own: each pass that goes on
    has read a line. *)
Lemma loop_total fuel : forall w task_service,
  is_service w task_service = true ->
  (length (stdin w) < fuel)%nat ->
  fst (while_true fuel (start_application_body the_business_logic task_service) w)
  <> OutOfFuel.
Proof.
  induction fuel as [|fuel IH]; intros w ts Hs Hlen; [lia|].
  destruct (stdin w) as [|choice rest] eqn:Hin.
  { rewrite (while_true_raise _ _ _ _ _ (pass_eof _ _ _ Hin)). discriminate. }
  destruct (String.eqb_spec choice "1") as [->|H1].
  { rewrite (while_true_raise _ _ _ _ _ (pass_view _ _ _ Hs Hin)). discriminate. }
  destruct (String.eqb_spec choice "3") as [->|H3].
  { rewrite (while_true_break _ _ _ _ (pass_quit _ _ _ _ Hin)). discriminate. }
  destruct (String.eqb_spec choice "2") as [->|H2].
  - destruct rest as [|description rest].
    { rewrite (while_true_raise _ _ _ _ _ (pass_add_eof _ _ _ Hin)). discriminate. }
    rewrite (while_true_continue _ _ _ _ (pass_add _ _ _ _ Hs Hin)).
    apply IH.
    + rewrite <- Hs. now apply is_service_heap.
    + cbn in *. lia.
  - rewrite (while_true_continue _ _ _ _ (pass_invalid _ _ _ _ _ Hin H1 H2 H3)).
    apply IH.
    + rewrite <- Hs. now apply is_service_heap.
    + cbn in *. lia.
Qed.

Lemma main_total fuel w :
  (length (stdin w) < fuel)%nat -> fst (main fuel w) <> OutOfFuel.
Proof.
  intros Hlen. rewrite main_unfold. apply loop_total.
  - apply heap_with_service_is_service.
  - exact Hlen.
Qed.

(** ** Nothing looks at the module-level constants *)

Create HintDb ig discriminated.

Lemma ig_ret {A} (a : A) : ignores_globals (ret a).
Proof. intros g w. reflexivity. Qed.

Lemma ig_raise {A} e : ignores_globals (@raise A e).
Proof. intros g w. reflexivity. Qed.

Lemma ig_out_of_fuel {A} : ignores_globals (@out_of_fuel A).
Proof. intros g w. reflexivity. Qed.

Lemma ig_bind {A B} (m : M A) (k : A -> M B) :
  ignores_globals m -> (forall a, ignores_globals (k a)) ->
  ignores_globals (bind m k).
Proof.
  intros Hm Hk g w. unfold bind. rewrite Hm.
  destruct (m w) as [[a|e|] w']; cbn [fst snd]; [apply Hk|reflexivity..].
Qed.

Lemma ig_print s : ignores_globals (print s).
Proof. intros g w. reflexivity. Qed.

Lemma ig_input p : ignores_globals (input p).
Proof. intros g w. unfold input. cbn [stdin with_globals]. now destruct (stdin w). Qed.

Lemma ig_getattr v n : ignores_globals (getattr v n).
Proof.
  intros g w. unfold getattr. destruct v; try reflexivity.
  cbn [heap with_globals]. destruct (heap w !! l) as [o|]; [|reflexivity].
  now destruct (obj_attrs o !! n).
Qed.

Lemma ig_setattr v n a : ignores_globals (setattr v n a).
Proof.
  intros g w. unfold setattr. destruct v; try reflexivity.
  cbn [heap with_globals]. now destruct (heap w !! l).
Qed.

Lemma ig_alloc c : ignores_globals (alloc c).
Proof. intros g w. reflexivity. Qed.

Lemma ig_py_len v : ignores_globals (py_len v).
Proof. destruct v; intros g w; reflexivity. Qed.

Lemma ig_py_iter v : ignores_globals (py_iter v).
Proof. destruct v; intros g w; reflexivity. Qed.

Lemma ig_py_add a b : ignores_globals (py_add a b).
Proof. destruct a, b; intros g w; reflexivity. Qed.

Lemma ig_py_contains a b : ignores_globals (py_contains a b).
Proof. destruct a, b; intros g w; reflexivity. Qed.

Lemma ig_assertEqual a b : ignores_globals (assertEqual a b).
Proof. unfold assertEqual. destruct (py_eq a b); intros g w; reflexivity. Qed.

#[local] Hint Resolve ig_ret ig_raise ig_out_of_fuel ig_print ig_input ig_getattr
  ig_setattr ig_alloc ig_py_len ig_py_iter ig_py_add ig_py_contains
  ig_assertEqual : ig.

Lemma ig_assertIn a b : ignores_globals (assertIn a b).
Proof.
  unfold assertIn. apply ig_bind; [auto with ig|].
  intros [|]; auto with ig.
Qed.

Lemma ig_for_each xs body :
  (forall x, ignores_globals (body x)) -> ignores_globals (for_each xs body).
Proof.
  intros Hb. induction xs as [|x xs IH]; cbn [for_each]; [auto with ig|].
  apply ig_bind; [apply Hb|intros _; exact IH].
Qed.

Lemma ig_while_true fuel body :
  ignores_globals body -> ignores_globals (while_true fuel body).
Proof.
  intros Hb. induction fuel as [|fuel IH]; cbn [while_true]; [auto with ig|].
  apply ig_bind; [exact Hb|]. intros [|]; auto with ig.
Qed.

Lemma ig_call_method ns recv name args :
  namespace_ignores_globals ns ->
  ignores_globals (call_method ns recv name args).
Proof.
  intros Hns g w. unfold call_method. destruct recv; try reflexivity.
  cbn [heap with_globals]. destruct (heap w !! l) as [o|]; [|reflexivity].
  destruct (obj_attrs o !! name); [reflexivity|].
  unfold find_method.
  destruct (ns !! obj_class o) as [c|] eqn:Ec; [|reflexivity].
  destruct (c !! name) as [f|] eqn:Ef; [|reflexivity].
  exact (Hns _ _ _ _ _ Ec Ef g w).
Qed.

Lemma ig_instantiate ns cname args :
  namespace_ignores_globals ns ->
  ignores_globals (instantiate ns cname args).
Proof.
  intros Hns. unfold instantiate.
  destruct (ns !! cname) as [c|] eqn:Ec; [|auto with ig].
  destruct (c !! "__init__") as [init|] eqn:Ei.
  - apply ig_bind; [auto with ig|]. intros self.
    apply ig_bind; [exact (Hns _ _ _ _ _ Ec Ei)|].
    intros []; auto with ig.
  - destruct args; auto with ig.
Qed.

#[local] Hint Resolve ig_assertIn ig_for_each ig_while_true ig_call_method
  ig_instantiate : ig.

Lemma ig_repository_get_tasks args : ignores_globals (TaskRepository.get_tasks args).
Proof. destruct args as [|? [|? ?]]; cbn; auto with ig. Qed.

Lemma ig_repository_save_task args : ignores_globals (TaskRepository.save_task args).
Proof. destruct args as [|? [|? [|? ?]]]; cbn; auto with ig. Qed.

Lemma data_access_ignores_globals : namespace_ignores_globals data_access.
Proof.
  intros cname c name f args Hc Hf.
  unfold data_access in Hc. apply lookup_singleton_Some in Hc as [_ <-].
  unfold TaskRepository.methods in Hf.
  apply lookup_insert_Some in Hf as [[_ <-]|[_ Hf]].
  - apply ig_repository_get_tasks.
  - apply lookup_singleton_Some in Hf as [_ <-]. apply ig_repository_save_task.
Qed.

Lemma ig_task_init args : ignores_globals (Task.__init__ args).
Proof.
  destruct args as [|? [|? [|? [|? ?]]]]; cbn; auto with ig.
  apply ig_bind; auto with ig.
Qed.

(** The property is not empty: a computation that did read a constant
    would not have it. *)
Lemma load_global_sees_globals : ~ ignores_globals (load_global "FILENAME").
Proof.
  intros H.
  specialize (H ∅ (initial_world [])). vm_compute in H. discriminate H.
Qed.

Section BusinessLogicIgnoresGlobals.

Variable imports : namespace.
Hypothesis imports_ignore : namespace_ignores_globals imports.

Lemma ig_service_init args : ignores_globals (TaskService.__init__ imports args).
Proof.
  destruct args as [|? [|? ?]]; cbn; auto with ig.
  apply ig_bind; auto with ig.
Qed.

Lemma ig_service_get_all_tasks args :
  ignores_globals (TaskService.get_all_tasks imports args).
Proof.
  destruct args as [|? [|? ?]]; cbn; auto with ig.
  apply ig_bind; auto with ig.
Qed.

Lemma ig_service_add_task args :
  ignores_globals (TaskService.add_task imports args).
Proof.
  destruct args as [|? [|? [|? ?]]]; cbn; auto with ig.
  apply ig_bind; [auto with ig|]. intros r.
  apply ig_bind; auto with ig.
Qed.

Lemma business_logic_ignores_globals :
  namespace_ignores_globals (business_logic imports).
Proof.
  intros cname c name f args Hc Hf.
  unfold business_logic in Hc.
  apply lookup_insert_Some in Hc as [[_ <-]|[_ Hc]].
  - unfold TaskService.methods in Hf.
    apply lookup_insert_Some in Hf as [[_ <-]|[_ Hf]];
      [apply ig_service_init|].
    apply lookup_insert_Some in Hf as [[_ <-]|[_ Hf]];
      [apply ig_service_get_all_tasks|].
    apply lookup_singleton_Some in Hf as [_ <-]. apply ig_service_add_task.
  - apply lookup_singleton_Some in Hc as [_ <-].
    unfold Task.methods in Hf.
    apply lookup_singleton_Some in Hf as [_ <-]. apply ig_task_init.
Qed.

End BusinessLogicIgnoresGlobals.

Lemma the_business_logic_ignores_globals :
  namespace_ignores_globals the_business_logic.
Proof. apply business_logic_ignores_globals, data_access_ignores_globals. Qed.

Lemma ig_start_application_body imports task_service :
  namespace_ignores_globals imports ->
  ignores_globals (start_application_body imports task_service).
Proof.
  intros Hns. unfold start_application_body.
  do 4 (apply ig_bind; [auto with ig|intros _]).
  apply ig_bind; [auto with ig|]. intros choice.
  destruct (String.eqb choice "1").
  { apply ig_bind; [auto with ig|]. intros tasks.
    apply ig_bind; [auto with ig|]. intros _.
    apply ig_bind; [auto with ig|]. intros items.
    apply ig_bind; [|auto with ig].
    apply ig_for_each. auto with ig. }
  destruct (String.eqb choice "2").
  { apply ig_bind; [auto with ig|]. intros new_task.
    apply ig_bind; [auto with ig|]. intros _.
    apply ig_bind; auto with ig. }
  destruct (String.eqb choice "3"); apply ig_bind; auto with ig.
Qed.

Lemma ig_start_application imports fuel :
  namespace_ignores_globals imports ->
  ignores_globals (start_application imports fuel).
Proof.
  intros Hns. unfold start_application.
  apply ig_bind; [auto with ig|]. intros ts.
  apply ig_while_true, ig_start_application_body, Hns.
Qed.

Lemma ig_format_date date : ignores_globals (format_date date).
Proof. apply ig_ret. Qed.

Lemma ig_test_add_task imports self :
  namespace_ignores_globals imports ->
  ignores_globals (TestTaskService.test_add_task imports self).
Proof.
  intros Hns. unfold TestTaskService.test_add_task.
  do 10 (apply ig_bind; [auto with ig|intro]). apply ig_assertIn.
Qed.

(** Two runs that differ in the constants only cannot be told apart. *)
Lemma ignores_globals_same_run {A} (m : M A) g1 g2 w :
  ignores_globals m ->
  same_run (m (with_globals g1 w)) (m (with_globals g2 w)).
Proof.
  intros Hm. rewrite (Hm g1 w), (Hm g2 w). unfold same_run. cbn [fst snd].
  repeat split.
Qed.

(** A new object elsewhere on the heap leaves a service a service. *)
Lemma is_service_insert_fresh w l o task_service :
  heap w !! l = None ->
  is_service w task_service = true ->
  is_service (with_heap (<[l := o]> (heap w)) w) task_service = true.
Proof.
  intros Hl Hs.
  pose proof Hs as Hs'.
  apply is_service_inv in Hs' as (os & r & Hos & _ & _ & _ & Hr & Hrepo).
  apply lookup_object_ref in Hos as (ls & -> & Hls).
  pose proof Hrepo as Hrepo'.
  apply is_repository_inv in Hrepo' as (ro & Hro & _).
  apply lookup_object_ref in Hro as (lr & -> & Hlr).
  assert (l <> ls) by congruence. assert (l <> lr) by congruence.
  unfold is_service, is_repository, lookup_object in *.
  cbn [heap with_heap].
  rewrite lookup_insert_ne by assumption. rewrite Hls in *. rewrite Hr in *.
  rewrite lookup_insert_ne by assumption. exact Hs.
Qed.

(** * The claims *)

(** C1: run against the stub repository, [test_add_task] does not pass.
    The service it builds answers [None] to [get_all_tasks], [len(None)]
    raises [TypeError], and the test ends there, in the world that holds
    the service and its repository and nothing else: the task of the test
    is never built and no assertion is reached.  [unittest] reports an
    error. *)
Theorem test_add_task_does_not_pass (self : value) (w : world) :
  let task_service := VRef (service_loc (heap w)) in
  let w1 := with_heap (heap_with_service (heap w)) w in
  instantiate the_business_logic "TaskService" [] w = (Ok task_service, w1)
  /\ call_method the_business_logic task_service "get_all_tasks" [] w1
     = (Ok VNone, w1)
  /\ py_len VNone w1 = (Raise TypeError, w1)
  /\ TestTaskService.test_add_task the_business_logic self w
     = (Raise TypeError, w1)
  /\ run_test (TestTaskService.test_add_task the_business_logic self) w
     = Errored TypeError
  /\ run_test (TestTaskService.test_add_task the_business_logic self) w
     <> Passed.
Proof.
  intros task_service w1.
  assert (Hcall : call_method the_business_logic task_service "get_all_tasks" [] w1
                  = (Ok VNone, w1))
    by apply call_get_all_tasks, heap_with_service_is_service.
  assert (Hrun : TestTaskService.test_add_task the_business_logic self w
                 = (Raise TypeError, w1)).
  { unfold TestTaskService.test_add_task.
    rewrite (bind_Ok _ _ _ _ _ (instantiate_TaskService w)).
    fold task_service w1.
    rewrite (bind_Ok _ _ _ _ _ Hcall).
    reflexivity. }
  split; [apply instantiate_TaskService|].
  split; [exact Hcall|].
  split; [reflexivity|].
  split; [exact Hrun|].
  unfold run_test. rewrite Hrun. cbn. split; [reflexivity|discriminate].
Qed.

(** C2: whatever the receiver, the argument and the world, the two
    methods of [TaskRepository] and [format_date] answer [None] and leave
    the world as it was. *)
Theorem placeholders_return_None (self task date : value) (w : world) :
  TaskRepository.get_tasks [self] w = (Ok VNone, w)
  /\ TaskRepository.save_task [self; task] w = (Ok VNone, w)
  /\ format_date date w = (Ok VNone, w).
Proof. repeat split. Qed.

(** C3: for a service whose [task_repository] is [r], [get_all_tasks] is
    the repository's [get_tasks] on [r], answer and world alike, and
    [add_task] is its [save_task] on [r] and the task with the answer
    dropped: same world, same exception if one is raised.  This holds for
    every repository class the import may bind, not the stub alone. *)
Theorem service_forwards_to_repository (imports : namespace) (w : world)
    (self r task : value) (get save : method) :
  repository_of imports w self r get save ->
  TaskService.get_all_tasks imports [self] w = spec_get_all_tasks get r w
  /\ TaskService.add_task imports [self; task] w = spec_add_task save r task w.
Proof.
  intros (o & ro & c & Ho & Hr & Hro & Hg & Hs & Hc & Hget & Hsave).
  apply lookup_object_ref in Ho as (l & -> & Hl).
  apply lookup_object_ref in Hro as (lr & -> & Hlr).
  assert (Hattr : getattr (VRef l) "task_repository" w = (Ok (VRef lr), w))
    by (unfold getattr; now rewrite Hl, Hr).
  split.
  - unfold TaskService.get_all_tasks, spec_get_all_tasks.
    rewrite (bind_Ok _ _ _ _ _ Hattr).
    unfold call_method, find_method. rewrite Hlr, Hg, Hc, Hget. reflexivity.
  - unfold TaskService.add_task, spec_add_task.
    rewrite (bind_Ok _ _ _ _ _ Hattr).
    unfold bind, call_method, find_method. rewrite Hlr, Hs, Hc, Hsave. destruct (save [VRef lr; task] w) as [[a|e|] w']; reflexivity.
Qed.

Lemma service_forwards_to_repository_witness :
  let w := with_heap
             (<[2%positive := Object "TaskRepository" {[ "last" := VStr "old" ]}]>
                (heap (serviced_world []))) (serviced_world []) in
  repository_of recording_data_access w (VRef 1%positive) (VRef 2%positive)
    RecordingRepository.get_tasks RecordingRepository.save_task
  /\ (TaskService.get_all_tasks recording_data_access [VRef 1%positive] w
      = spec_get_all_tasks RecordingRepository.get_tasks (VRef 2%positive) w
      /\ TaskService.add_task recording_data_access [VRef 1%positive; VStr "new"] w
         = spec_add_task RecordingRepository.save_task (VRef 2%positive) (VStr "new") w).
Proof.
  intros w.
  assert (H : repository_of recording_data_access w (VRef 1%positive)
                (VRef 2%positive) RecordingRepository.get_tasks
                RecordingRepository.save_task).
  { exists (Object "TaskService" {[ "task_repository" := VRef 2%positive ]}),
           (Object "TaskRepository" {[ "last" := VStr "old" ]}),
           RecordingRepository.methods.
    repeat split; vm_compute; reflexivity. }
  split; [exact H|].
  exact (service_forwards_to_repository recording_data_access w (VRef 1%positive)
           (VRef 2%positive) (VStr "new") RecordingRepository.get_tasks
           RecordingRepository.save_task H).
Defined.

(** C4: on choice "2" the pass reads the next line and hands it, as the
    string it is, to [add_task] of whatever service it was given; with the
    service of the script that call answers [None] and changes nothing, so
    "Task added successfully" is printed whatever was typed and the pass
    ends with the heap and the constants as they were: the console alone
    has moved, by the menu, the two prompts and that line. *)
Theorem choice_2_adds_nothing (w : world) (task_service : value)
    (description : string) (rest : list string) :
  is_service w task_service = true ->
  stdin w = "2" :: description :: rest ->
  let w2 := after_description rest (after_menu (description :: rest) w) in
  let w3 := printed "Task added successfully" w2 in
  (forall imports,
     start_application_body imports task_service w
     = (call_method imports task_service "add_task" [VStr description];;;
        print "Task added successfully";;;
        ret Continue) w2)
  /\ call_method the_business_logic task_service "add_task" [VStr description] w2
     = (Ok VNone, w2)
  /\ start_application_body the_business_logic task_service w = (Ok Continue, w3)
  /\ heap w3 = heap w
  /\ globals w3 = globals w
  /\ stdin w3 = rest
  /\ stdout w3
     = (stdout w ++ menu ++ [Prompted "Enter task description: ";
                             Printed "Task added successfully"])%list.
Proof.
  intros Hs Hin w2 w3.
  split; [intros imports; now apply pass_add_generic|].
  split.
  { apply call_add_task. rewrite <- Hs. now apply is_service_heap. }
  split; [now apply pass_add|].
  repeat split. cbn. now rewrite <- !app_assoc.
Qed.

Lemma choice_2_adds_nothing_witness :
  let w := serviced_world ["2"; "buy milk"; "3"] in
  let ts := VRef (service_loc ∅) in
  let w2 := after_description ["3"] (after_menu ["buy milk"; "3"] w) in
  let w3 := printed "Task added successfully" w2 in
  is_service w ts = true
  /\ stdin w = ["2"; "buy milk"; "3"]
  /\ ((forall imports,
         start_application_body imports ts w
         = (call_method imports ts "add_task" [VStr "buy milk"];;;
            print "Task added successfully";;;
            ret Continue) w2)
      /\ call_method the_business_logic ts "add_task" [VStr "buy milk"] w2
         = (Ok VNone, w2)
      /\ start_application_body the_business_logic ts w = (Ok Continue, w3)
      /\ heap w3 = heap w
      /\ globals w3 = globals w
      /\ stdin w3 = ["3"]
      /\ stdout w3
         = (stdout w ++ menu ++ [Prompted "Enter task description: ";
                                 Printed "Task added successfully"])%list).
Proof.
  intros w ts w2 w3.
  split; [vm_compute; reflexivity|].
  split; [reflexivity|].
  apply (choice_2_adds_nothing w ts "buy milk" ["3"]); [vm_compute|]; reflexivity.
Defined.

(** C5: a line at the menu prompt other than "1", "2" and "3" has the pass
    print "Invalid Choice. Please try again." after the menu and go round
    again: the loop carries on from a world that differs by that output and
    the line read, with the objects and the constants untouched. *)
Theorem invalid_choice_reprompts (imports : namespace) (task_service : value)
    (w : world) (choice : string) (rest : list string) (fuel : nat) :
  stdin w = choice :: rest ->
  choice <> "1" -> choice <> "2" -> choice <> "3" ->
  let w' := printed "Invalid Choice. Please try again." (after_menu rest w) in
  start_application_body imports task_service w = (Ok Continue, w')
  /\ while_true (S fuel) (start_application_body imports task_service) w
     = while_true fuel (start_application_body imports task_service) w'
  /\ heap w' = heap w
  /\ globals w' = globals w
  /\ stdin w' = rest
  /\ stdout w'
     = (stdout w ++ menu ++ [Printed "Invalid Choice. Please try again."])%list.
Proof.
  intros Hin H1 H2 H3 w'.
  pose proof (pass_invalid imports task_service w choice rest Hin H1 H2 H3) as Hp.
  split; [exact Hp|].
  split; [now apply while_true_continue|].
  repeat split. cbn. now rewrite <- !app_assoc.
Qed.

Lemma invalid_choice_reprompts_witness :
  let w := serviced_world ["9"; "3"] in
  let ts := VRef (service_loc ∅) in
  let w' := printed "Invalid Choice. Please try again." (after_menu ["3"] w) in
  stdin w = ["9"; "3"]
  /\ "9" <> "1" /\ "9" <> "2" /\ "9" <> "3"
  /\ (start_application_body the_business_logic ts w = (Ok Continue, w')
      /\ while_true 2 (start_application_body the_business_logic ts) w
         = while_true 1 (start_application_body the_business_logic ts) w'
      /\ heap w' = heap w
      /\ globals w' = globals w
      /\ stdin w' = ["3"]
      /\ stdout w'
         = (stdout w ++ menu ++ [Printed "Invalid Choice. Please try again."])%list).
Proof.
  intros w ts w'.
  split; [reflexivity|].
  split; [discriminate|]. split; [discriminate|]. split; [discriminate|].
  apply (invalid_choice_reprompts the_business_logic ts w "9" ["3"] 1);
    [reflexivity|discriminate..].
Defined.

(** C6, at the input "1" then "3": the user does enter "3", yet the loop
    never reads it.  The pass for "1" prints "Tasks: " and raises
    [TypeError], which ends [start_application]: "3" is still waiting to
    be read and the farewell is not on the console.  More fuel changes
    nothing. *)
Theorem view_then_quit_never_quits (fuel : nat) :
  let w' := printed "Tasks: " (after_menu ["3"] (serviced_world ["1"; "3"])) in
  main (S fuel) (initial_world ["1"; "3"]) = (Raise TypeError, w')
  /\ stdin w' = ["3"]
  /\ Printed "Exiting the application. Goodbye!" ∉ stdout w'.
Proof.
  intros w'. split.
  - rewrite main_unfold. apply while_true_raise.
    apply (pass_view (serviced_world ["1"; "3"]) _ ["3"]); [|reflexivity].
    apply (heap_with_service_is_service (initial_world ["1"; "3"])).
  - split; [reflexivity|].
    cbn. rewrite !elem_of_cons, elem_of_nil.
    intros H. repeat (destruct H as [H|H]; [discriminate H|]). exact H.
Qed.

(** What does hold of C6: "3" at the menu prompt prints the farewell and
    ends the loop with no exception. *)
Lemma quit_exits imports task_service w rest fuel :
  stdin w = "3" :: rest ->
  while_true (S fuel) (start_application_body imports task_service) w
  = (Ok VNone, printed "Exiting the application. Goodbye!" (after_menu rest w)).
Proof. intros Hin. now apply while_true_break, pass_quit. Qed.

(** C7: [Task(title, description)] succeeds for all strings and returns a
    new object of class [Task] whose attributes are [title] and
    [description], holding the strings given, and no other: there is no
    [id], and nothing is checked. *)
Theorem Task_constructor (imports : namespace) (title description : string)
    (w : world) :
  let l := fresh (dom (heap w)) in
  let task := task_object (VStr title) (VStr description) in
  let w' := with_heap (<[l := task]> (heap w)) w in
  instantiate (business_logic imports) "Task" [VStr title; VStr description] w
  = (Ok (VRef l), w')
  /\ heap w !! l = None
  /\ getattr (VRef l) "title" w' = (Ok (VStr title), w')
  /\ getattr (VRef l) "description" w' = (Ok (VStr description), w')
  /\ dom (obj_attrs task) = ({[ "title"; "description" ]} : gset string)
  /\ obj_attrs task !! "id" = None.
Proof.
  intros l task w'.
  split; [apply instantiate_Task|].
  split; [apply fresh_heap_None|].
  split; [|split].
  - unfold getattr, w'. cbn [heap with_heap]. now rewrite lookup_insert_eq.
  - unfold getattr, w'. cbn [heap with_heap]. now rewrite lookup_insert_eq.
  - split; [|reflexivity].
    unfold task, task_object. cbn [obj_attrs].
    rewrite dom_insert_L, dom_singleton_L. reflexivity.
Qed.

(** C8: whatever [TASK_MAX_LENGTH] holds and however long the strings are,
    [Task(title, description)] builds its object and [add_task] accepts it,
    and accepts the bare description too, answering [None] with nothing
    changed; neither operation looks at the module-level constants. *)
Theorem no_length_check (title description : string) (limit : value)
    (w : world) (task_service : value) :
  is_service w task_service = true ->
  let w0 := with_TASK_MAX_LENGTH limit w in
  let l := fresh (dom (heap w)) in
  let w1 := with_heap
              (<[l := task_object (VStr title) (VStr description)]> (heap w0)) w0 in
  instantiate the_business_logic "Task" [VStr title; VStr description] w0
  = (Ok (VRef l), w1)
  /\ call_method the_business_logic task_service "add_task" [VRef l] w1
     = (Ok VNone, w1)
  /\ call_method the_business_logic task_service "add_task" [VStr description] w0
     = (Ok VNone, w0)
  /\ ignores_globals
       (instantiate the_business_logic "Task" [VStr title; VStr description])
  /\ (forall task,
        ignores_globals (call_method the_business_logic task_service "add_task" [task])).
Proof.
  intros Hs w0 l w1.
  assert (Hs0 : is_service w0 task_service = true)
    by (rewrite <- Hs; now apply is_service_heap).
  split; [apply (instantiate_Task data_access)|].
  split.
  { apply call_add_task.
    apply (is_service_insert_fresh w0); [apply fresh_heap_None|exact Hs0]. }
  split; [now apply call_add_task|].
  split.
  - apply ig_instantiate, the_business_logic_ignores_globals.
  - intros task. apply ig_call_method, the_business_logic_ignores_globals.
Qed.

Lemma no_length_check_witness :
  let title := repeat_char 101 "x" in
  let description := repeat_char 250 "y" in
  let w := serviced_world [] in
  let ts := VRef (service_loc ∅) in
  let w0 := with_TASK_MAX_LENGTH (VInt TASK_MAX_LENGTH) w in
  let l := fresh (dom (heap w)) in
  let w1 := with_heap
              (<[l := task_object (VStr title) (VStr description)]> (heap w0)) w0 in
  is_service w ts = true
  /\ (Z.of_nat (String.length title) > TASK_MAX_LENGTH)%Z
  /\ (Z.of_nat (String.length description) > TASK_MAX_LENGTH)%Z
  /\ (instantiate the_business_logic "Task" [VStr title; VStr description] w0
      = (Ok (VRef l), w1)
      /\ call_method the_business_logic ts "add_task" [VRef l] w1 = (Ok VNone, w1)
      /\ call_method the_business_logic ts "add_task" [VStr description] w0
         = (Ok VNone, w0)
      /\ ignores_globals
           (instantiate the_business_logic "Task" [VStr title; VStr description])
      /\ (forall task,
            ignores_globals (call_method the_business_logic ts "add_task" [task]))).
Proof.
  intros title description w ts w0 l w1.
  split; [vm_compute; reflexivity|].
  split; [vm_compute; reflexivity|].
  split; [vm_compute; reflexivity|].
  apply (no_length_check title description (VInt TASK_MAX_LENGTH) w ts).
  vm_compute; reflexivity.
Defined.

(** C9: [FILENAME] is "data.txt", and that is all there is to it: run from
    two worlds that differ in the value of [FILENAME] only, every operation
    of the script gives the same answer, the same objects and the same
    console.  Nothing reads the constant, so nothing can use it to name a
    file. *)
Theorem FILENAME_never_read :
  FILENAME = "data.txt"
  /\ (forall lines, globals (initial_world lines) !! "FILENAME" = Some (VStr "data.txt"))
  /\ (forall args, FILENAME_blind (TaskRepository.get_tasks args))
  /\ (forall args, FILENAME_blind (TaskRepository.save_task args))
  /\ (forall args, FILENAME_blind (TaskService.__init__ data_access args))
  /\ (forall args, FILENAME_blind (TaskService.get_all_tasks data_access args))
  /\ (forall args, FILENAME_blind (TaskService.add_task data_access args))
  /\ (forall args, FILENAME_blind (Task.__init__ args))
  /\ (forall cname args, FILENAME_blind (instantiate the_business_logic cname args))
  /\ (forall recv name args,
        FILENAME_blind (call_method the_business_logic recv name args))
  /\ (forall fuel, FILENAME_blind (start_application the_business_logic fuel))
  /\ (forall date, FILENAME_blind (format_date date))
  /\ (forall self,
        FILENAME_blind (TestTaskService.test_add_task the_business_logic self)).
Proof.
  assert (Hblind : forall A (m : M A), ignores_globals m -> FILENAME_blind m).
  { intros A m Hm f1 f2 w. unfold with_FILENAME.
    now apply ignores_globals_same_run. }
  pose proof data_access_ignores_globals as Hd.
  pose proof the_business_logic_ignores_globals as Hb.
  split; [reflexivity|]. split; [reflexivity|].
  split; [intros; apply Hblind, ig_repository_get_tasks|].
  split; [intros; apply Hblind, ig_repository_save_task|].
  split; [intros; now apply Hblind, ig_service_init|].
  split; [intros; now apply Hblind, ig_service_get_all_tasks|].
  split; [intros; now apply Hblind, ig_service_add_task|].
  split; [intros; apply Hblind, ig_task_init|].
  split; [intros; now apply Hblind, ig_instantiate|].
  split; [intros; now apply Hblind, ig_call_method|].
  split; [intros; now apply Hblind, ig_start_application|].
  split; [intros; apply Hblind, ig_format_date|].
  intros; now apply Hblind, ig_test_add_task.
Qed.

(** C10: on choice "1", with the service of the script, [get_all_tasks]
    answers [None]; "Tasks: " is printed, the [for] loop asks [None] for an
    iterator and gets [TypeError], and nothing catches it: the pass, the
    loop and the application end with that exception, whatever fuel the
    loop has, and no task line is printed. *)
Theorem view_tasks_raises_TypeError (w : world) (task_service : value)
    (rest : list string) (fuel : nat) :
  is_service w task_service = true ->
  stdin w = "1" :: rest ->
  let w1 := after_menu rest w in
  let w2 := printed "Tasks: " w1 in
  call_method the_business_logic task_service "get_all_tasks" [] w1 = (Ok VNone, w1)
  /\ py_iter VNone w2 = (Raise TypeError, w2)
  /\ start_application_body the_business_logic task_service w = (Raise TypeError, w2)
  /\ while_true (S fuel) (start_application_body the_business_logic task_service) w
     = (Raise TypeError, w2)
  /\ stdout w2 = (stdout w ++ menu ++ [Printed "Tasks: "])%list.
Proof.
  intros Hs Hin w1 w2.
  split.
  { apply call_get_all_tasks. rewrite <- Hs. now apply is_service_heap. }
  split; [reflexivity|].
  pose proof (pass_view w task_service rest Hs Hin) as Hp.
  split; [exact Hp|].
  split; [now apply while_true_raise|].
  cbn. now rewrite <- app_assoc.
Qed.

Lemma view_tasks_raises_TypeError_witness :
  let w := serviced_world ["1"] in
  let ts := VRef (service_loc ∅) in
  let w1 := after_menu [] w in
  let w2 := printed "Tasks: " w1 in
  is_service w ts = true
  /\ stdin w = ["1"]
  /\ (call_method the_business_logic ts "get_all_tasks" [] w1 = (Ok VNone, w1)
      /\ py_iter VNone w2 = (Raise TypeError, w2)
      /\ start_application_body the_business_logic ts w = (Raise TypeError, w2)
      /\ while_true 1 (start_application_body the_business_logic ts) w
         = (Raise TypeError, w2)
      /\ stdout w2 = (stdout w ++ menu ++ [Printed "Tasks: "])%list).
Proof.
  intros w ts w1 w2.
  split; [vm_compute; reflexivity|].
  split; [reflexivity|].
  apply (view_tasks_raises_TypeError w ts [] 0); [vm_compute|]; reflexivity.
Defined.

(** The application as a whole: started on "1", it ends in [TypeError]. *)
Lemma main_view_raises w rest fuel :
  stdin w = "1" :: rest ->
  fst (main (S fuel) w) = Raise TypeError.
Proof.
  intros Hin. rewrite main_unfold.
  erewrite while_true_raise; [reflexivity|].
  apply pass_view; [apply heap_with_service_is_service|exact Hin].
Qed.

(** ** The service run against a repository that records *)

(** With [RecordingRepository] bound in place of the stub, choice "2"
    leaves the very line typed in the repository: the loop and the service
    pass it on untouched. *)
Example recording_run :
  let bl := business_logic recording_data_access in
  let w := snd (start_application bl 1 (initial_world ["2"; "buy milk"])) in
  getattr (VRef (repository_loc ∅)) "last" w = (Ok (VStr "buy milk"), w).
Proof. vm_compute. reflexivity. Qed.

(** * Further properties *)

(** ** The loop and its fuel *)

(** Fuel beyond what a loop needs changes nothing. *)
Lemma while_true_more_fuel (body : M control) n : forall w m,
  fst (while_true n body w) <> OutOfFuel ->
  (n <= m)%nat ->
  while_true m body w = while_true n body w.
Proof.
  induction n as [|n IH]; intros w m Hn Hle.
  - exfalso. apply Hn. reflexivity.
  - destruct m as [|m]; [lia|].
    cbn [while_true] in *. unfold bind in *.
    destruct (body w) as [[[|]|e|] w']; try reflexivity.
    apply IH; [exact Hn|lia].
Qed.

(** ** The session *)

Lemma session_view rest :
  session ("1" :: rest) = Summary (Crash TypeError) rest (menu ++ [Printed "Tasks: "]).
Proof. reflexivity. Qed.

Lemma session_add description rest :
  session ("2" :: description :: rest)
  = preceded_by
      (menu ++ [Prompted "Enter task description: ";
                Printed "Task added successfully"])
      (session rest).
Proof. reflexivity. Qed.

Lemma session_add_eof :
  session ["2"]
  = Summary (Crash EOFError) [] (menu ++ [Prompted "Enter task description: "]).
Proof. reflexivity. Qed.

Lemma session_quit rest :
  session ("3" :: rest)
  = Summary Quit rest (menu ++ [Printed "Exiting the application. Goodbye!"]).
Proof. reflexivity. Qed.

Lemma session_invalid choice rest :
  choice <> "1" -> choice <> "2" -> choice <> "3" ->
  session (choice :: rest)
  = preceded_by (menu ++ [Printed "Invalid Choice. Please try again."])
      (session rest).
Proof.
  intros H1 H2 H3. apply String.eqb_neq in H1, H2, H3.
  cbn [session]. now rewrite H1, H2, H3.
Qed.

(** The world a loop that started in [w] leaves after the session [s]. *)
Lemma loop_session fuel : forall w task_service,
  is_service w task_service = true ->
  (length (stdin w) < fuel)%nat ->
  while_true fuel (start_application_body the_business_logic task_service) w
  = (ending_result (s_ending (session (stdin w))),
     with_stdout (stdout w ++ s_written (session (stdin w)))
       (with_stdin (s_left (session (stdin w))) w)).
Proof.
  induction fuel as [|fuel IH]; intros w ts Hs Hlen; [lia|].
  destruct (stdin w) as [|choice rest] eqn:Hin.
  { rewrite (while_true_raise _ _ _ _ _ (pass_eof _ _ _ Hin)).
    unfold with_stdout, with_stdin. cbn. now rewrite Hin. }
  destruct (String.eqb_spec choice "1") as [->|H1].
  { rewrite (while_true_raise _ _ _ _ _ (pass_view _ _ _ Hs Hin)), session_view.
    unfold printed, after_menu, with_stdout, with_stdin. cbn.
    now rewrite <- app_assoc. }
  destruct (String.eqb_spec choice "3") as [->|H3].
  { rewrite (while_true_break _ _ _ _ (pass_quit _ _ _ _ Hin)), session_quit.
    unfold printed, after_menu, with_stdout, with_stdin. cbn.
    now rewrite <- app_assoc. }
  destruct (String.eqb_spec choice "2") as [->|H2].
  - destruct rest as [|description rest].
    { rewrite (while_true_raise _ _ _ _ _ (pass_add_eof _ _ _ Hin)), session_add_eof.
      unfold after_menu, with_stdout, with_stdin. cbn.
      now rewrite <- app_assoc. }
    rewrite (while_true_continue _ _ _ _ (pass_add _ _ _ _ Hs Hin)), session_add.
    rewrite IH.
    + unfold printed, after_description, after_menu, with_stdout, with_stdin.
      cbn. now rewrite <- !app_assoc.
    + rewrite <- Hs. now apply is_service_heap.
    + cbn in *. lia.
  - rewrite (while_true_continue _ _ _ _ (pass_invalid _ _ _ _ _ Hin H1 H2 H3)).
    rewrite (session_invalid _ _ H1 H2 H3), IH.
    + unfold printed, after_menu, with_stdout, with_stdin.
      cbn. now rewrite <- !app_assoc.
    + rewrite <- Hs. now apply is_service_heap.
    + cbn in *. lia.
Qed.

Lemma main_session fuel w :
  (length (stdin w) < fuel)%nat ->
  main fuel w
  = (ending_result (s_ending (session (stdin w))),
     after_session (session (stdin w)) w).
Proof.
  intros Hlen. rewrite main_unfold, loop_session.
  - reflexivity.
  - apply heap_with_service_is_service.
  - exact Hlen.
Qed.

(** A run that did not run out of fuel is the run of the session, whatever
    the fuel was. *)
Lemma main_session_any_fuel fuel w :
  fst (main fuel w) <> OutOfFuel ->
  main fuel w
  = (ending_result (s_ending (session (stdin w))),
     after_session (session (stdin w)) w).
Proof.
  intros Hf.
  rewrite <- (main_session (S (length (stdin w))) w) by lia.
  destruct (Nat.le_gt_cases fuel (S (length (stdin w)))) as [Hle|Hgt].
  - rewrite !main_unfold in *. symmetry.
    now apply while_true_more_fuel.
  - assert (Hmin : fst (main (S (length (stdin w))) w) <> OutOfFuel)
      by (apply main_total; lia).
    rewrite !main_unfold in *.
    apply while_true_more_fuel; [exact Hmin|lia].
Qed.

(** X1: given more fuel than there are lines to read, [start_application]
    does what the session of those lines says, and nothing else: it ends
    the way the session ends, leaves unread what the session leaves, has
    written what the session writes after what was on the console, and
    the heap holds the service and its repository as [TaskService()] built
    them, with the constants as they were. *)
Theorem main_runs_the_session (fuel : nat) (w : world) :
  (length (stdin w) < fuel)%nat ->
  main fuel w
  = (ending_result (s_ending (session (stdin w))),
     after_session (session (stdin w)) w).
Proof. apply main_session. Qed.

Lemma main_runs_the_session_witness :
  let w := initial_world ["2"; "3"; "x"; "3"; "1"] in
  (length (stdin w) < 6)%nat
  /\ main 6 w
     = (ending_result (s_ending (session (stdin w))),
        after_session (session (stdin w)) w).
Proof.
  intros w. split; [cbn; lia|].
  apply (main_runs_the_session 6 w). cbn. lia.
Defined.

(** X2: [start_application] comes to an end on every finite input: with
    one unit of fuel more than there are lines the loop never runs out,
    and any larger amount gives the very same run. *)
Theorem main_terminates (fuel : nat) (w : world) :
  (length (stdin w) < fuel)%nat ->
  fst (main fuel w) <> OutOfFuel
  /\ main fuel w = main (S (length (stdin w))) w.
Proof.
  intros Hlen.
  assert (Hmin : fst (main (S (length (stdin w))) w) <> OutOfFuel)
    by (apply main_total; lia).
  rewrite !main_unfold in *.
  rewrite (while_true_more_fuel _ (S (length (stdin w))) _ fuel Hmin) by lia.
  split; [exact Hmin|reflexivity].
Qed.

Lemma main_terminates_witness :
  let w := initial_world ["9"; "2"; "1"; "3"] in
  (length (stdin w) < 7)%nat
  /\ (fst (main 7 w) <> OutOfFuel /\ main 7 w = main (S (length (stdin w))) w).
Proof.
  intros w. split; [cbn; lia|].
  apply (main_terminates 7 w). cbn. lia.
Defined.

(** ** What a session can be *)

(** Reasoning by the cases of [session]. *)
Lemma session_cases (P : list string -> summary -> Prop) :
  P [] (Summary (Crash EOFError) [] menu) ->
  (forall rest,
     P ("1" :: rest) (Summary (Crash TypeError) rest (menu ++ [Printed "Tasks: "]))) ->
  P ["2"]
    (Summary (Crash EOFError) [] (menu ++ [Prompted "Enter task description: "])) ->
  (forall description rest,
     P rest (session rest) ->
     P ("2" :: description :: rest)
       (preceded_by
          (menu ++ [Prompted "Enter task description: ";
                    Printed "Task added successfully"])
          (session rest))) ->
  (forall rest,
     P ("3" :: rest)
       (Summary Quit rest (menu ++ [Printed "Exiting the application. Goodbye!"]))) ->
  (forall choice rest,
     choice <> "1" -> choice <> "2" -> choice <> "3" ->
     P rest (session rest) ->
     P (choice :: rest)
       (preceded_by (menu ++ [Printed "Invalid Choice. Please try again."])
          (session rest))) ->
  forall lines, P lines (session lines).
Proof.
  intros Hnil Hview Haddeof Hadd Hquit Hinv lines.
  remember (length lines) as n eqn:Hn.
  revert lines Hn.
  induction n as [n IH] using lt_wf_ind. intros lines Hn.
  destruct lines as [|choice rest]; [exact Hnil|].
  destruct (String.eqb_spec choice "1") as [->|H1]; [apply Hview|].
  destruct (String.eqb_spec choice "3") as [->|H3]; [apply Hquit|].
  destruct (String.eqb_spec choice "2") as [->|H2].
  - destruct rest as [|description rest]; [exact Haddeof|].
    rewrite session_add. apply Hadd.
    apply (IH (length rest)); [cbn in Hn; lia|reflexivity].
  - rewrite (session_invalid _ _ H1 H2 H3). apply Hinv; try assumption.
    apply (IH (length rest)); [cbn in Hn; lia|reflexivity].
Qed.

Lemma session_Quit lines :
  s_ending (session lines) = Quit ->
  "3" ∈ lines
  /\ last (s_written (session lines))
     = Some (Printed "Exiting the application. Goodbye!").
Proof.
  apply (session_cases (fun lines s =>
    s_ending s = Quit ->
    "3" ∈ lines
    /\ last (s_written s) = Some (Printed "Exiting the application. Goodbye!")));
    cbn [s_ending s_written preceded_by]; try discriminate.
  - intros d rest IH Hq. destruct (IH Hq) as [Hin Hlast]. split.
    + now do 2 apply list_elem_of_further.
    + apply last_app_Some. now left.
  - intros rest _. split; [apply list_elem_of_here|reflexivity].
  - intros c rest _ _ _ IH Hq. destruct (IH Hq) as [Hin Hlast]. split.
    + now apply list_elem_of_further.
    + apply last_app_Some. now left.
Qed.

Lemma session_Crash lines e :
  s_ending (session lines) = Crash e ->
  (e = TypeError /\ "1" ∈ lines)
  \/ (e = EOFError /\ s_left (session lines) = []).
Proof.
  apply (session_cases (fun lines s =>
    s_ending s = Crash e ->
    (e = TypeError /\ "1" ∈ lines) \/ (e = EOFError /\ s_left s = [])));
    cbn [s_ending s_left preceded_by]; try discriminate.
  - intros [= <-]. now right.
  - intros rest [= <-]. left. split; [reflexivity|apply list_elem_of_here].
  - intros [= <-]. now right.
  - intros d rest IH Hc. destruct (IH Hc) as [[-> Hin]|[-> Hl]]; [left|now right].
    split; [reflexivity|]. now do 2 apply list_elem_of_further.
  - intros c rest _ _ _ IH Hc.
    destruct (IH Hc) as [[-> Hin]|[-> Hl]]; [left|now right].
    split; [reflexivity|]. now apply list_elem_of_further.
Qed.

(** X3: [start_application] returns only by way of choice "3": if it
    returns a value at all, whatever the fuel, that value is [None], "3" is
    among the lines typed and the farewell is the last thing on the
    console. *)
Theorem main_returns_only_on_quit (fuel : nat) (w : world) (v : value) :
  fst (main fuel w) = Ok v ->
  v = VNone
  /\ "3" ∈ stdin w
  /\ last (stdout (snd (main fuel w)))
     = Some (Printed "Exiting the application. Goodbye!").
Proof.
  intros Hok.
  assert (Hf : fst (main fuel w) <> OutOfFuel) by (rewrite Hok; discriminate).
  rewrite (main_session_any_fuel fuel w Hf) in *. cbn [fst snd] in *.
  destruct (s_ending (session (stdin w))) as [|e] eqn:He; [|discriminate].
  destruct (session_Quit _ He) as [Hin Hlast].
  cbn in Hok. split; [congruence|]. split; [exact Hin|].
  unfold after_session. cbn [stdout]. apply last_app_Some. now left.
Qed.

Lemma main_returns_only_on_quit_witness :
  let w := initial_world ["2"; "1"; ""; "3"; "1"] in
  fst (main 4 w) = Ok VNone
  /\ (VNone = VNone
      /\ "3" ∈ stdin w
      /\ last (stdout (snd (main 4 w)))
         = Some (Printed "Exiting the application. Goodbye!")).
Proof.
  intros w.
  assert (H : fst (main 4 w) = Ok VNone) by (vm_compute; reflexivity).
  split; [exact H|].
  exact (main_returns_only_on_quit 4 w VNone H).
Defined.

(** X4: only two exceptions leave [start_application]: [TypeError], and
    then "1" is among the lines typed, or [EOFError], and then every line
    has been read. *)
Theorem main_raises (fuel : nat) (w : world) (e : exn) :
  fst (main fuel w) = Raise e ->
  (e = TypeError /\ "1" ∈ stdin w)
  \/ (e = EOFError /\ stdin (snd (main fuel w)) = []).
Proof.
  intros Hr.
  assert (Hf : fst (main fuel w) <> OutOfFuel) by (rewrite Hr; discriminate).
  rewrite (main_session_any_fuel fuel w Hf) in *. cbn [fst snd] in *.
  destruct (s_ending (session (stdin w))) as [|e'] eqn:He; [discriminate|].
  cbn in Hr. injection Hr as ->.
  exact (session_Crash _ _ He).
Qed.

Lemma main_raises_witness :
  let w := initial_world ["7"; "2"] in
  fst (main 3 w) = Raise EOFError
  /\ ((EOFError = TypeError /\ "1" ∈ stdin w)
      \/ (EOFError = EOFError /\ stdin (snd (main 3 w)) = [])).
Proof.
  intros w.
  assert (H : fst (main 3 w) = Raise EOFError) by (vm_compute; reflexivity).
  split; [exact H|].
  exact (main_raises 3 w EOFError H).
Defined.

(** ** What a session leaves behind *)

(** One pass of the loop of the script leaves the heap and the constants
    alone, adds to the console and takes from the front of the input. *)
Lemma pass_frame w task_service :
  is_service w task_service = true ->
  let w' := snd (start_application_body the_business_logic task_service w) in
  heap w' = heap w
  /\ globals w' = globals w
  /\ stdout w `prefix_of` stdout w'
  /\ stdin w' `suffix_of` stdin w.
Proof.
  intros Hs.
  destruct (stdin w) as [|choice rest] eqn:Hin.
  { rewrite (pass_eof _ _ _ Hin). cbn. rewrite Hin.
    repeat split; [now apply prefix_app_r|reflexivity]. }
  assert (Hsuf : rest `suffix_of` choice :: rest) by now apply suffix_cons_r.
  destruct (String.eqb_spec choice "1") as [->|H1].
  { rewrite (pass_view _ _ _ Hs Hin). cbn.
    repeat split; [now do 2 apply prefix_app_r|exact Hsuf]. }
  destruct (String.eqb_spec choice "3") as [->|H3].
  { rewrite (pass_quit _ _ _ _ Hin). cbn.
    repeat split; [now do 2 apply prefix_app_r|exact Hsuf]. }
  destruct (String.eqb_spec choice "2") as [->|H2].
  - destruct rest as [|description rest].
    { rewrite (pass_add_eof _ _ _ Hin). cbn.
      repeat split; [now do 2 apply prefix_app_r|exact Hsuf]. }
    rewrite (pass_add _ _ _ _ Hs Hin). cbn.
    repeat split; [now do 3 apply prefix_app_r|now do 2 apply suffix_cons_r].
  - rewrite (pass_invalid _ _ _ _ _ Hin H1 H2 H3). cbn.
    repeat split; [now do 2 apply prefix_app_r|exact Hsuf].
Qed.

Lemma loop_frame fuel : forall w task_service,
  is_service w task_service = true ->
  let w' := snd (while_true fuel
                   (start_application_body the_business_logic task_service) w) in
  heap w' = heap w
  /\ globals w' = globals w
  /\ stdout w `prefix_of` stdout w'
  /\ stdin w' `suffix_of` stdin w.
Proof.
  induction fuel as [|fuel IH]; intros w ts Hs; [now cbn|].
  pose proof (pass_frame w ts Hs) as Hp. cbn zeta in Hp.
  cbn [while_true]. unfold bind.
  destruct (start_application_body the_business_logic ts w) as [[[|]|e|] w1];
    cbn [snd] in *; try exact Hp.
  destruct Hp as (Hh & Hg & Hpre & Hsuf).
  assert (Hs1 : is_service w1 ts = true)
    by (rewrite <- Hs; now apply is_service_heap).
  destruct (IH w1 ts Hs1) as (Hh' & Hg' & Hpre' & Hsuf').
  repeat split; [congruence|congruence|etrans; eassumption|etrans; eassumption].
Qed.

(** X5: however long [start_application] is left to run, and whatever is
    typed, it stores nothing: the heap holds the service and the
    repository [TaskService()] built and is otherwise as it was, the
    module-level constants are as they were, the console has only grown
    and what is left of the input is an end of what there was. *)
Theorem main_stores_nothing (fuel : nat) (w : world) :
  let w' := snd (main fuel w) in
  heap w' = heap_with_service (heap w)
  /\ globals w' = globals w
  /\ stdout w `prefix_of` stdout w'
  /\ stdin w' `suffix_of` stdin w
  /\ is_service w' (VRef (service_loc (heap w))) = true.
Proof.
  rewrite main_unfold.
  pose proof (heap_with_service_is_service w) as Hs.
  destruct (loop_frame fuel _ _ Hs) as (Hh & Hg & Hpre & Hsuf).
  cbn zeta. repeat split; try assumption.
  rewrite <- Hs. now apply is_service_heap.
Qed.

(** ** The service and its objects *)

(** X6: with the repository of the script nothing added is ever seen
    again: any number of [add_task] calls, on any values, answer [None]
    and leave the world as it was, and [get_all_tasks] after them still
    answers [None]. *)
Theorem added_tasks_are_not_kept (w : world) (task_service : value)
    (tasks : list value) :
  is_service w task_service = true ->
  for_each tasks
    (fun task => call_method the_business_logic task_service "add_task" [task]) w
  = (Ok VNone, w)
  /\ (for_each tasks
        (fun task => call_method the_business_logic task_service "add_task" [task]);;;
      call_method the_business_logic task_service "get_all_tasks" []) w
     = (Ok VNone, w).
Proof.
  intros Hs.
  assert (Hall : for_each tasks
            (fun task => call_method the_business_logic task_service "add_task" [task]) w
          = (Ok VNone, w)).
  { induction tasks as [|task tasks IH]; [reflexivity|].
    cbn [for_each].
    now rewrite (bind_Ok _ _ _ _ _ (call_add_task w task_service task Hs)). }
  split; [exact Hall|].
  rewrite (bind_Ok _ _ _ _ _ Hall). now apply call_get_all_tasks.
Qed.

Lemma added_tasks_are_not_kept_witness :
  let w := serviced_world [] in
  let ts := VRef (service_loc ∅) in
  let tasks := [VStr "buy milk"; VNone; VStr "buy milk"; VInt 3] in
  is_service w ts = true
  /\ (for_each tasks
        (fun task => call_method the_business_logic ts "add_task" [task]) w
      = (Ok VNone, w)
      /\ (for_each tasks
            (fun task => call_method the_business_logic ts "add_task" [task]);;;
          call_method the_business_logic ts "get_all_tasks" []) w
         = (Ok VNone, w)).
Proof.
  intros w ts tasks.
  assert (H : is_service w ts = true) by (vm_compute; reflexivity).
  split; [exact H|].
  exact (added_tasks_are_not_kept w ts tasks H).
Defined.

Lemma service_loc_fresh (h : gmap loc object) : h !! service_loc h = None.
Proof. apply fresh_heap_None. Qed.

Lemma heap_with_service_lookup_service (h : gmap loc object) :
  heap_with_service h !! service_loc h
  = Some (Object "TaskService" {[ "task_repository" := VRef (repository_loc h) ]}).
Proof. unfold heap_with_service. apply lookup_insert_eq. Qed.

Lemma heap_with_service_lookup_repository (h : gmap loc object) :
  heap_with_service h !! repository_loc h = Some (Object "TaskRepository" ∅).
Proof.
  destruct (repository_loc_fresh h) as [Hne _].
  unfold heap_with_service.
  rewrite lookup_insert_ne by congruence. apply lookup_insert_eq.
Qed.

Lemma heap_with_service_extends (h : gmap loc object) : h ⊆ heap_with_service h.
Proof.
  destruct (repository_loc_fresh h) as [Hne Hnone].
  unfold heap_with_service.
  etrans; [apply (insert_subseteq h (repository_loc h)); exact Hnone|].
  apply insert_subseteq.
  rewrite lookup_insert_ne by assumption. apply service_loc_fresh.
Qed.

(** X7: every [TaskService()] builds a repository of its own.  Two
    services built one after the other are four objects at four places,
    each service holds its own repository in [task_repository], both are
    well formed at the end, and no object that was there before is
    touched. *)
Theorem TaskService_builds_its_own_repository (w : world) :
  let s1 := service_loc (heap w) in
  let r1 := repository_loc (heap w) in
  let w1 := with_heap (heap_with_service (heap w)) w in
  let s2 := service_loc (heap w1) in
  let r2 := repository_loc (heap w1) in
  let w2 := with_heap (heap_with_service (heap w1)) w1 in
  instantiate the_business_logic "TaskService" [] w = (Ok (VRef s1), w1)
  /\ instantiate the_business_logic "TaskService" [] w1 = (Ok (VRef s2), w2)
  /\ NoDup [s1; r1; s2; r2]
  /\ getattr (VRef s1) "task_repository" w2 = (Ok (VRef r1), w2)
  /\ getattr (VRef s2) "task_repository" w2 = (Ok (VRef r2), w2)
  /\ is_service w2 (VRef s1) = true
  /\ is_service w2 (VRef s2) = true
  /\ heap w ⊆ heap w1
  /\ heap w1 ⊆ heap w2.
Proof.
  intros s1 r1 w1 s2 r2 w2.
  pose proof (heap_with_service_lookup_service (heap w)) as Hs1.
  pose proof (heap_with_service_lookup_repository (heap w)) as Hr1.
  pose proof (repository_loc_fresh (heap w)) as [Hne1 _].
  pose proof (repository_loc_fresh (heap w1)) as [Hne2 Hr2none].
  pose proof (service_loc_fresh (heap w1)) as Hs2none.
  fold s1 r1 in Hs1, Hr1, Hne1. fold s2 r2 in Hne2, Hr2none, Hs2none.
  change (heap w1) with (heap_with_service (heap w)) in *.
  assert (s2 <> s1) by congruence. assert (s2 <> r1) by congruence.
  assert (r2 <> s1) by congruence. assert (r2 <> r1) by congruence.
  pose proof (heap_with_service_extends (heap_with_service (heap w))) as Hext.
  assert (Hk1 : heap w2 !! s1 = Some (Object "TaskService" {[ "task_repository" := VRef r1 ]}))
    by (eapply lookup_weaken; [exact Hs1|exact Hext]).
  assert (Hk2 : heap w2 !! r1 = Some (Object "TaskRepository" ∅))
    by (eapply lookup_weaken; [exact Hr1|exact Hext]).
  split; [apply instantiate_TaskService|].
  split; [apply instantiate_TaskService|].
  split.
  { do 3 (apply NoDup_cons; split;
            [rewrite !elem_of_cons, elem_of_nil; intuition congruence|]).
    apply NoDup_singleton. }
  split; [unfold getattr; now rewrite Hk1|].
  split.
  { assert (Hk3 : heap w2 !! s2
                  = Some (Object "TaskService" {[ "task_repository" := VRef r2 ]}))
      by exact (heap_with_service_lookup_service (heap_with_service (heap w))).
    unfold getattr. now rewrite Hk3. }
  split.
  { unfold is_service, is_repository, lookup_object. rewrite Hk1. cbn [obj_attrs].
    rewrite lookup_singleton_eq, Hk2. reflexivity. }
  split; [apply (heap_with_service_is_service w1)|].
  split; [apply heap_with_service_extends|exact Hext].
Qed.

(** X8: a task is equal to itself only.  [Task] defines no [__eq__], so
    two tasks built from the same title and description hold the same
    attributes and still compare unequal: [assertEqual] on them raises
    [AssertionError].  Building them touches no other object. *)
Theorem Task_equality_is_identity (imports : namespace) (title description : value)
    (w : world) :
  let l1 := fresh (dom (heap w)) in
  let w1 := with_heap (<[l1 := task_object title description]> (heap w)) w in
  let l2 := fresh (dom (heap w1)) in
  let w2 := with_heap (<[l2 := task_object title description]> (heap w1)) w1 in
  instantiate (business_logic imports) "Task" [title; description] w
  = (Ok (VRef l1), w1)
  /\ instantiate (business_logic imports) "Task" [title; description] w1
     = (Ok (VRef l2), w2)
  /\ heap w2 !! l1 = Some (task_object title description)
  /\ heap w2 !! l2 = Some (task_object title description)
  /\ py_eq (VRef l1) (VRef l2) = false
  /\ assertEqual (VRef l1) (VRef l2) w2 = (Raise AssertionError, w2)
  /\ heap w ⊆ heap w2.
Proof.
  intros l1 w1 l2 w2.
  pose proof (fresh_heap_None (heap w)) as H1. fold l1 in H1.
  pose proof (fresh_heap_None (heap w1)) as H2. fold l2 in H2.
  assert (Hl1 : heap w1 !! l1 = Some (task_object title description))
    by apply lookup_insert_eq.
  assert (Hne : l1 <> l2) by congruence.
  assert (Heq : py_eq (VRef l1) (VRef l2) = false).
  { unfold py_eq. apply bool_decide_eq_false. congruence. }
  split; [apply instantiate_Task|].
  split; [apply (instantiate_Task imports title description w1)|].
  split.
  { cbn [heap w2 with_heap]. rewrite lookup_insert_ne by congruence. exact Hl1. }
  split; [apply lookup_insert_eq|].
  split; [exact Heq|].
  split; [unfold assertEqual; now rewrite Heq|].
  etrans; [apply (insert_subseteq (heap w) l1); exact H1|].
  apply (insert_subseteq (heap w1) l2). exact H2.
Qed.

(** X9: the constructors take the arguments their [__init__] names and no
    others.  [Task] with none, one, or more than two raises [TypeError];
    so does [TaskService] with any, and so does [TaskRepository], which
    has no [__init__] at all, leaving the world as it was. *)
Theorem constructors_check_arity (imports : namespace) (a b c : value)
    (more : list value) (w : world) :
  fst (instantiate (business_logic imports) "Task" [] w) = Raise TypeError
  /\ fst (instantiate (business_logic imports) "Task" [a] w) = Raise TypeError
  /\ fst (instantiate (business_logic imports) "Task" (a :: b :: c :: more) w)
     = Raise TypeError
  /\ fst (instantiate (business_logic imports) "TaskService" (a :: more) w)
     = Raise TypeError
  /\ instantiate data_access "TaskRepository" (a :: more) w = (Raise TypeError, w).
Proof.
  assert (HT : forall args,
            instantiate (business_logic imports) "Task" args
            = (self <- alloc "Task";;
               r <- Task.__init__ (self :: args);;
               match r with VNone => ret self | _ => raise TypeError end)).
  { intros args. unfold instantiate.
    rewrite business_logic_Task. cbv beta iota.
    now rewrite task_init_lookup. }
  assert (HS : forall args,
            instantiate (business_logic imports) "TaskService" args
            = (self <- alloc "TaskService";;
               r <- TaskService.__init__ imports (self :: args);;
               match r with VNone => ret self | _ => raise TypeError end)).
  { intros args. unfold instantiate.
    rewrite business_logic_TaskService. cbv beta iota.
    now rewrite service_init_lookup. }
  rewrite !HT, HS. repeat split.
Qed.

(** ** The view branch with a service that answers *)





(** X11: nothing in the loop catches what the service raises.  If
    [add_task] raises on the description typed, the pass, and with it the
    loop, ends with that exception in the world the call left, and the
    line "Task added successfully" is not printed by the pass. *)
Theorem service_errors_escape (imports : namespace) (task_service : value)
    (w w' : world) (description : string) (rest : list string) (e : exn)
    (fuel : nat) :
  stdin w = "2" :: description :: rest ->
  call_method imports task_service "add_task" [VStr description]
    (after_description rest (after_menu (description :: rest) w))
  = (Raise e, w') ->
  start_application_body imports task_service w = (Raise e, w')
  /\ while_true (S fuel) (start_application_body imports task_service) w
     = (Raise e, w').
Proof.
  intros Hin Hcall.
  assert (Hp : start_application_body imports task_service w = (Raise e, w')).
  { rewrite (pass_add_generic _ _ _ _ _ Hin).
    now rewrite (bind_Raise _ _ _ _ _ Hcall). }
  split; [exact Hp|now apply while_true_raise].
Qed.

Lemma service_errors_escape_witness :
  let w := initial_world ["2"; "buy milk"; "3"] in
  let w2 := after_description ["3"] (after_menu ["buy milk"; "3"] w) in
  stdin w = ["2"; "buy milk"; "3"]
  /\ call_method the_business_logic VNone "add_task" [VStr "buy milk"] w2
     = (Raise AttributeError, w2)
  /\ (start_application_body the_business_logic VNone w = (Raise AttributeError, w2)
      /\ while_true 3 (start_application_body the_business_logic VNone) w
         = (Raise AttributeError, w2)).
Proof.
  intros w w2.
  split; [reflexivity|]. split; [reflexivity|].
  exact (service_errors_escape the_business_logic VNone w w2 "buy milk" ["3"]
           AttributeError 2 eq_refl eq_refl).
Defined.

(** ** The linting example *)







